(** * crime-radio-search: the query tools of [server.py]

    A shallow embedding of [parse_val], [build_geo_query],
    [build_time_query], [serialize_document], [search_crime_events] and
    [get_crime_stats], followed by the properties of the specification.

    Python values are an inductive type, exceptions are the left summand of
    a sum, and the UTC clock is a counter of samples threaded through the
    code.  The document store, the clock readings and the Python built-ins
    whose full definition lies outside the repository (float rendering,
    numeric parsing of text, [traceback.format_exc], [isoformat], [round])
    are fields of an environment class. *)

From Stdlib Require Import ZArith List String Ascii Bool Lia.
From Stdlib Require Import SpecFloat DecimalString.
Import ListNotations.

Local Open Scope string_scope.
Local Open Scope Z_scope.
Local Set Warnings "-register-all".

(** ** Python values *)

(** IEEE binary64, as CPython's [float]. *)
Definition prec : Z := 53.
Definition emax : Z := 1024.

Inductive pyval : Type :=
| VNone
| VBool (b : bool)
| VInt (z : Z)
| VFloat (f : spec_float)
| VStr (s : string)
| VList (l : list pyval)
| VDict (d : list (pyval * pyval))
    (* insertion-ordered, one entry per key *)
| VDatetime (us : Z) (utc : bool)
    (* microseconds since 0001-01-01T00:00:00; [utc] tells an aware
       datetime (tzinfo = timezone.utc) from a naive one *)
| VObj (s : string).
    (* an object of a class that is not modelled (a bson ObjectId, say);
       [s] is what [str] gives for it *)

Definition dict : Type := list (pyval * pyval).

(** ** Exceptions *)

Inductive exn_class : Type :=
| ValueError
| TypeError
| OverflowError
| AttributeError
| OtherError (name : string).   (* e.g. pymongo.errors.* *)

Record exn : Type := Exn { exn_cls : exn_class; exn_msg : string }.

Definition exc (A : Type) : Type := (exn + A)%type.

Definition raise {A} (c : exn_class) (msg : string) : exc A := inl (Exn c msg).

Definition ebind {A B} (m : exc A) (k : A -> exc B) : exc B :=
  match m with
  | inl e => inl e
  | inr a => k a
  end.

(** [except (ValueError, TypeError)] *)
Definition is_value_or_type_error (e : exn) : bool :=
  match exn_cls e with
  | ValueError | TypeError => true
  | _ => false
  end.

(** ** Strings: [str.strip], [str.split(',')], [str.lower] on ASCII text *)

Definition is_space (c : ascii) : bool :=
  let n := nat_of_ascii c in
  (((9 <=? n) && (n <=? 13)) || ((28 <=? n) && (n <=? 32)))%nat.

Fixpoint lstrip (s : string) : string :=
  match s with
  | EmptyString => EmptyString
  | String c r => if is_space c then lstrip r else s
  end.

Fixpoint rstrip (s : string) : string :=
  match s with
  | EmptyString => EmptyString
  | String c r =>
      match rstrip r with
      | EmptyString => if is_space c then EmptyString else String c EmptyString
      | r' => String c r'
      end
  end.

Definition strip (s : string) : string := rstrip (lstrip s).

Fixpoint split_comma (s : string) : list string :=
  match s with
  | EmptyString => [EmptyString]
  | String c r =>
      if Ascii.eqb c "," then EmptyString :: split_comma r
      else match split_comma r with
           | p :: ps => String c p :: ps
           | [] => [String c EmptyString]
           end
  end.

Definition lower_char (c : ascii) : ascii :=
  let n := nat_of_ascii c in
  if ((65 <=? n) && (n <=? 90))%nat then ascii_of_nat (n + 32) else c.

Fixpoint lower (s : string) : string :=
  match s with
  | EmptyString => EmptyString
  | String c r => String (lower_char c) (lower r)
  end.

Definition str_in (s : string) (l : list string) : bool :=
  existsb (String.eqb s) l.

Definition string_of_Z (z : Z) : string :=
  NilZero.string_of_int (Z.to_int z).

(** ** Numbers *)

Definition float_of_Z (z : Z) : spec_float :=
  binary_normalize prec emax z 0 false.

Definition float_is_zero (f : spec_float) : bool :=
  match f with S754_zero _ => true | _ => false end.

(** [int(x)] for a float: truncation toward zero; the two non-finite cases
    raise different exceptions. *)
Definition int_of_float (f : spec_float) : exc Z :=
  match f with
  | S754_zero _ => inr 0
  | S754_finite s m e =>
      let a := Z.shiftl (Zpos m) e in
      inr (if s then - a else a)
  | S754_infinity _ =>
      raise OverflowError "cannot convert float infinity to integer"
  | S754_nan => raise ValueError "cannot convert float NaN to integer"
  end.

(** [float(n)] for an int: correctly rounded, [OverflowError] past the
    largest finite double. *)
Definition float_of_int (z : Z) : exc spec_float :=
  match float_of_Z z with
  | S754_infinity _ => raise OverflowError "int too large to convert to float"
  | f => inr f
  end.

(** Truth value, as tested by [if v:] and [v or d]. *)
Definition py_truthy (v : pyval) : bool :=
  match v with
  | VNone => false
  | VBool b => b
  | VInt z => negb (z =? 0)
  | VFloat f => negb (float_is_zero f)
  | VStr s => negb (String.eqb s "")
  | VList l => match l with [] => false | _ => true end
  | VDict d => match d with [] => false | _ => true end
  | VDatetime _ _ => true
  | VObj _ => true
  end.

Definition py_or (a b : pyval) : pyval := if py_truthy a then a else b.

(** [type(v).__name__] *)
Definition type_name (v : pyval) : string :=
  match v with
  | VNone => "NoneType"
  | VBool _ => "bool"
  | VInt _ => "int"
  | VFloat _ => "float"
  | VStr _ => "str"
  | VList _ => "list"
  | VDict _ => "dict"
  | VDatetime _ _ => "datetime.datetime"
  | VObj _ => "object"
  end.

(** ** Dictionaries *)

(** Whether a float holds exactly the integer [z]. *)
Definition float_eq_Z (f : spec_float) (z : Z) : bool :=
  match f with
  | S754_zero _ => z =? 0
  | S754_finite s m e =>
      let a := Z.shiftl (Zpos m) e in
      (Z.shiftl a (- e) =? Zpos m) && ((if s then - a else a) =? z)
  | _ => false
  end.

(** [==] on hashable values, as a dictionary compares keys.  Numbers of
    different types are equal when they denote the same number; a NaN equals
    nothing. *)
Definition key_eqb (a b : pyval) : bool :=
  match a, b with
  | VNone, VNone => true
  | VBool x, VBool y => Bool.eqb x y
  | VBool x, VInt y => Z.b2z x =? y
  | VInt x, VBool y => x =? Z.b2z y
  | VInt x, VInt y => x =? y
  | VBool x, VFloat g => float_eq_Z g (Z.b2z x)
  | VInt x, VFloat g => float_eq_Z g x
  | VFloat f, VBool y => float_eq_Z f (Z.b2z y)
  | VFloat f, VInt y => float_eq_Z f y
  | VFloat f, VFloat g => SFeqb f g
  | VStr s, VStr t => String.eqb s t
  | VDatetime t u, VDatetime t' u' => (t =? t') && Bool.eqb u u'
  | VObj s, VObj t => String.eqb s t
  | _, _ => false
  end.

Definition hashable (v : pyval) : bool :=
  match v with
  | VList _ | VDict _ => false
  | _ => true
  end.

Fixpoint assoc_get {V} (k : pyval) (d : list (pyval * V)) : option V :=
  match d with
  | [] => None
  | (k', v) :: r => if key_eqb k' k then Some v else assoc_get k r
  end.

(** [d[k] = v]: an existing key keeps its place, a new one goes last. *)
Fixpoint assoc_set {V} (k : pyval) (v : V) (d : list (pyval * V))
  : list (pyval * V) :=
  match d with
  | [] => [(k, v)]
  | (k', v') :: r =>
      if key_eqb k' k then (k', v) :: r else (k', v') :: assoc_set k v r
  end.

(** Lookup and assignment at a string key, which is always hashable. *)
Definition dget (k : string) (d : dict) : option pyval := assoc_get (VStr k) d.
Definition dset (k : string) (v : pyval) (d : dict) : dict :=
  assoc_set (VStr k) v d.

(** [d.update(d2)] *)
Definition dict_update (d d2 : dict) : dict :=
  fold_left (fun acc kv => assoc_set (fst kv) (snd kv) acc) d2 d.

(** A literal [{"k1": v1, ...}] with string keys. *)
Definition mkdict (kvs : list (string * pyval)) : dict :=
  map (fun kv => (VStr (fst kv), snd kv)) kvs.

(** ** Dates *)

Definition us_per_hour : Z := 3600000000.
Definition us_per_day : Z := 86400000000.
Definition max_delta_days : Z := 999999999.   (* timedelta.max.days *)
Definition max_ordinal : Z := 3652059.        (* date.max.toordinal() *)

(** [timedelta(hours=h)], in microseconds. *)
Definition timedelta_hours (h : Z) : exc Z :=
  let us := h * us_per_hour in
  if Z.abs (us / us_per_day) <=? max_delta_days then inr us
  else raise OverflowError "days out of range; must have magnitude <= 999999999".

(** [t - d] for a datetime [t] and a timedelta [d]: the result has to lie
    between [datetime.min] and [datetime.max]. *)
Definition datetime_sub (t d : Z) : exc Z :=
  let r := t - d in
  if (0 <=? r) && (r <? max_ordinal * us_per_day) then inr r
  else raise OverflowError "date value out of range".

(** ** The environment of a call *)

Class Env : Type := {
  (* [sys.get_int_max_str_digits()]: past that many digits, turning an int
     into text raises [ValueError]; 0 means no limit *)
  int_max_str_digits : Z;
  (* [str(v)] for the values whose rendering is not spelled out here:
     floats, lists, dicts, datetimes; [None] stands for the [ValueError] of
     an int inside that is too long to print *)
  py_repr : pyval -> option string;
  (* [int(s)] and [float(s)] on text; [None] stands for [ValueError] *)
  int_of_str : string -> option Z;
  float_of_str : string -> option spec_float;
  (* the n-th reading of [datetime.now(timezone.utc)], in microseconds *)
  utc_clock : nat -> Z;
  (* [datetime.isoformat()] *)
  isoformat : Z -> bool -> string;
  (* [round(x, 2)] on a float *)
  round2 : spec_float -> spec_float;
  (* [traceback.format_exc()] while the exception is being handled *)
  format_exc : exn -> string;
  (* [list(collection.find(query).sort("updated_at", -1).limit(n))] on the
     collection of [get_crime_collection()] *)
  store_find : dict -> Z -> exc (list dict);
  (* [list(collection.aggregate(pipeline))] *)
  store_aggregate : list pyval -> exc (list dict)
}.

(** The state a call threads: how often the clock has been read. *)
Record world : Type := World { clock_reads : nat }.

Definition tick (w : world) : world := World (S (clock_reads w)).

Definition M (A : Type) : Type := world -> exc A * world.

Definition ret {A} (a : A) : M A := fun w => (inr a, w).

Definition bind {A B} (m : M A) (k : A -> M B) : M B :=
  fun w =>
    match m w with
    | (inl e, w') => (inl e, w')
    | (inr a, w') => k a w'
    end.

Definition lift {A} (m : exc A) : M A := fun w => (m, w).

Declare Scope py_scope.
Delimit Scope py_scope with py.
Notation "x <- m ;; k" := (bind m (fun x => k))
  (at level 61, m at next level, right associativity) : py_scope.
Notation "x <-? m ;; k" := (ebind m (fun x => k))
  (at level 61, m at next level, right associativity) : py_scope.
Local Open Scope py_scope.

(** ** The functions of [server.py] *)

Inductive pytype : Type := TStr | TInt | TFloat | TList | TOther.

Definition five : spec_float := float_of_Z 5.

Record search_args : Type := SearchArgs {
  zipcode : pyval;
  city_pid : pyval;
  latitude : pyval;
  longitude : pyval;
  radius_km : pyval;
  hours_back : pyval;
  limit : pyval;
  category : pyval;
  risk_level : pyval
}.

(** The defaults of the signature of [search_crime_events]. *)
Definition search_defaults : search_args :=
  {| zipcode := VNone; city_pid := VNone; latitude := VNone;
     longitude := VNone; radius_km := VFloat five; hours_back := VInt 24;
     limit := VInt 10; category := VNone; risk_level := VNone |}.

(** The coerced parameters, lines 97-105.  [parse_val(_, str)] gives [None]
    or a [str], and so on: the fields carry the Python type each variable
    has at that point. *)
Record search_params : Type := SearchParams {
  zipcode_val : option string;
  city_pid_val : option string;
  latitude_val : option spec_float;
  longitude_val : option spec_float;
  radius_val : spec_float;
  hours_val : Z;
  limit_val : Z;
  category_val : option string;
  risk_val : option string
}.

Record stats_args : Type := StatsArgs {
  s_zipcode : pyval;
  s_city_pid : pyval;
  s_hours_back : pyval
}.

Definition stats_defaults : stats_args :=
  {| s_zipcode := VNone; s_city_pid := VNone; s_hours_back := VInt 24 |}.

Record stats_params : Type := StatsParams {
  sp_zipcode_val : option string;
  sp_city_pid_val : option string;
  sp_hours_val : Z
}.

(** Reading a dynamically typed value at the type it is known to have. *)
Definition as_opt_str (v : pyval) : exc (option string) :=
  match v with
  | VNone => inr None
  | VStr s => inr (Some s)
  | _ => raise TypeError "expected str or None"
  end.

Definition as_opt_float (v : pyval) : exc (option spec_float) :=
  match v with
  | VNone => inr None
  | VFloat f => inr (Some f)
  | _ => raise TypeError "expected float or None"
  end.

Definition as_float (v : pyval) : exc spec_float :=
  match v with
  | VFloat f => inr f
  | _ => raise TypeError "expected float"
  end.

Definition as_int (v : pyval) : exc Z :=
  match v with
  | VInt z => inr z
  | _ => raise TypeError "expected int"
  end.

Definition of_opt_str (o : option string) : pyval :=
  match o with Some s => VStr s | None => VNone end.

Definition of_opt_float (o : option spec_float) : pyval :=
  match o with Some f => VFloat f | None => VNone end.

Definition risk_levels : list string := ["low"; "medium"; "high"].

(** The range [{"$gte": start, "$lte": end}] and the clause
    [{"updated_at": range}]. *)
Definition time_range (start_time end_time : Z) : pyval :=
  VDict (mkdict [("$gte", VDatetime start_time true);
                 ("$lte", VDatetime end_time true)]).

Definition time_window (start_time end_time : Z) : dict :=
  mkdict [("updated_at", time_range start_time end_time)].

Section Server.
Context {E : Env}.

(** [str(v)] *)
Definition py_str (v : pyval) : exc string :=
  match v with
  | VNone => inr "None"
  | VBool true => inr "True"
  | VBool false => inr "False"
  | VInt z =>
      let digits := Z.of_nat (String.length (string_of_Z (Z.abs z))) in
      if (0 <? int_max_str_digits) && (int_max_str_digits <? digits) then
        raise ValueError "Exceeds the limit for integer string conversion"
      else inr (string_of_Z z)
  | VStr s => inr s
  | VObj s => inr s
  | VFloat _ | VList _ | VDict _ | VDatetime _ _ =>
      match py_repr v with
      | Some s => inr s
      | None =>
          raise ValueError "Exceeds the limit for integer string conversion"
      end
  end.

(** [int(v)] *)
Definition py_int (v : pyval) : exc Z :=
  match v with
  | VBool b => inr (Z.b2z b)
  | VInt z => inr z
  | VFloat f => int_of_float f
  | VStr s =>
      match int_of_str s with
      | Some z => inr z
      | None => raise ValueError "invalid literal for int() with base 10"
      end
  | _ => raise TypeError "int() argument must be a string or a real number"
  end.

(** [float(v)] *)
Definition py_float (v : pyval) : exc spec_float :=
  match v with
  | VBool b => inr (float_of_Z (Z.b2z b))
  | VInt z => float_of_int z
  | VFloat f => inr f
  | VStr s =>
      match float_of_str s with
      | Some f => inr f
      | None => raise ValueError "could not convert string to float"
      end
  | _ => raise TypeError "float() argument must be a string or a real number"
  end.

(** Lines 21-39. *)
Definition parse_val (value : pyval) (target_type : pytype) : exc pyval :=
  match value with
  | VNone => inr VNone
  | _ =>
      let body : exc pyval :=
        match target_type with
        | TStr => s <-? py_str value ;; inr (VStr s)
        | TInt => z <-? py_int value ;; inr (VInt z)
        | TFloat => f <-? py_float value ;; inr (VFloat f)
        | TList =>
            match value with
            | VStr s =>
                inr (VList (map (fun v => VStr (strip v)) (split_comma s)))
            | VList _ => inr value
            | _ => inr (VList [value])
            end
        | TOther => inr value
        end in
      match body with
      | inl e => if is_value_or_type_error e then inr VNone else inl e
      | inr v => inr v
      end
  end.

(** Lines 41-53. *)
Definition build_geo_query (lat lon radius_km : spec_float) : dict :=
  mkdict
    [("geopoint",
      VDict (mkdict
        [("$near",
          VDict (mkdict
            [("$geometry",
              VDict (mkdict [("type", VStr "Point");
                             ("coordinates", VList [VFloat lon; VFloat lat])]));
             ("$maxDistance",
              VFloat (SFmul prec emax radius_km (float_of_Z 1000)))]))]))].

(** [datetime.now(timezone.utc)]: one more reading of the clock. *)
Definition datetime_now_utc : M Z :=
  fun w => (inr (utc_clock (clock_reads w)), tick w).

(** Lines 55-67. *)
Definition build_time_query (hours_back : Z) : M dict :=
  end_time <- datetime_now_utc ;;
  start_time <- lift (d <-? timedelta_hours hours_back ;;
                      datetime_sub end_time d) ;;
  ret (time_window start_time end_time).

(** Lines 69-79. *)
Definition serialize_value (value : pyval) : pyval :=
  match value with
  | VDatetime t u => VStr (isoformat t u)
  | VInt _ | VFloat _ | VStr _ | VBool _ | VList _ | VDict _ => value
  | VNone => VStr "None"
  | VObj s => VStr s
  end.

Definition serialize_document (doc : dict) : dict :=
  fold_left
    (fun serialized kv => assoc_set (fst kv) (serialize_value (snd kv)) serialized)
    doc [].

(** Line 101 / 102 and 200 / 103. *)
Definition effective_radius (radius_km : pyval) : exc spec_float :=
  v <-? parse_val radius_km TFloat ;; as_float (py_or v (VFloat five)).

Definition effective_hours (hours_back : pyval) : exc Z :=
  v <-? parse_val hours_back TInt ;; as_int (py_or v (VInt 24)).

Definition effective_limit (limit : pyval) : exc Z :=
  v <-? parse_val limit TInt ;;
  n <-? as_int (py_or v (VInt 10)) ;;
  inr (Z.min n 100).

(** Lines 97-105. *)
Definition coerce_search_args (a : search_args) : exc search_params :=
  zipcode_val <-? (v <-? parse_val (zipcode a) TStr ;; as_opt_str v) ;;
  city_pid_val <-? (v <-? parse_val (city_pid a) TStr ;; as_opt_str v) ;;
  latitude_val <-? (v <-? parse_val (latitude a) TFloat ;; as_opt_float v) ;;
  longitude_val <-? (v <-? parse_val (longitude a) TFloat ;; as_opt_float v) ;;
  radius_val <-? effective_radius (radius_km a) ;;
  hours_val <-? effective_hours (hours_back a) ;;
  limit_val <-? effective_limit (limit a) ;;
  category_val <-? (v <-? parse_val (category a) TStr ;; as_opt_str v) ;;
  risk_val <-? (v <-? parse_val (risk_level a) TStr ;; as_opt_str v) ;;
  inr (SearchParams zipcode_val city_pid_val latitude_val longitude_val
         radius_val hours_val limit_val category_val risk_val).

(** [{"zipcodes": {"$elemMatch": {"$in": zipcodes}}}], lines 117-119 and
    207-209. *)
Definition zipcode_clause (zipcode_val : string) : pyval :=
  let zipcodes := map (fun z => VStr (strip z)) (split_comma zipcode_val) in
  VDict (mkdict [("$elemMatch", VDict (mkdict [("$in", VList zipcodes)]))]).

(** Lines 114-125. *)
Definition location_filters (p : search_params) : list dict :=
  (match zipcode_val p with
   | Some s =>
       if py_truthy (VStr s) then [mkdict [("zipcodes", zipcode_clause s)]]
       else []
   | None => []
   end)
  ++
  (match city_pid_val p with
   | Some s =>
       if py_truthy (VStr s) then [mkdict [("city_pid", VStr s)]] else []
   | None => []
   end)
  ++
  (match latitude_val p, longitude_val p with
   | Some lat, Some lon => [build_geo_query lat lon (radius_val p)]
   | _, _ => []
   end).

(** Lines 128-132. *)
Definition add_location (location_filters : list dict) (query : dict) : dict :=
  match location_filters with
  | [] => query
  | [f] => dict_update query f
  | _ => dset "$or" (VList (map VDict location_filters)) query
  end.

(** Lines 135-136. *)
Definition add_category (category_val : option string) (query : dict) : dict :=
  match category_val with
  | Some s =>
      if py_truthy (VStr s) then
        dset "category"
          (VDict (mkdict [("$regex", VStr s); ("$options", VStr "i")])) query
      else query
  | None => query
  end.

(** Lines 139-140. *)
Definition add_risk (risk_val : option string) (query : dict) : dict :=
  match risk_val with
  | Some s =>
      if py_truthy (VStr s) && str_in (lower s) risk_levels then
        dset "risk" (VStr (lower s)) query
      else query
  | None => query
  end.

(** Lines 108-141 once the time clause is there. *)
Definition assemble_search_query (p : search_params) (time_query : dict)
  : dict :=
  let query := dict_update [] time_query in
  let query := add_location (location_filters p) query in
  let query := add_category (category_val p) query in
  let query := add_risk (risk_val p) query in
  dset "address_type" (VStr "POI") query.

(** Lines 108-141: the query handed to the store. *)
Definition build_search_query (p : search_params) : M dict :=
  time_query <- build_time_query (hours_val p) ;;
  ret (assemble_search_query p time_query).

Definition coerced_params (p : search_params) : pyval :=
  VDict (mkdict
    [("zipcode", of_opt_str (zipcode_val p));
     ("city_pid", of_opt_str (city_pid_val p));
     ("latitude", of_opt_float (latitude_val p));
     ("longitude", of_opt_float (longitude_val p));
     ("radius_km", VFloat (radius_val p));
     ("hours_back", VInt (hours_val p));
     ("limit", VInt (limit_val p));
     ("category", of_opt_str (category_val p));
     ("risk_level", of_opt_str (risk_val p))]).

Definition original_params (a : search_args) : pyval :=
  VDict (mkdict
    [("zipcode", zipcode a);
     ("city_pid", city_pid a);
     ("latitude", latitude a);
     ("longitude", longitude a);
     ("radius_km", radius_km a);
     ("hours_back", hours_back a);
     ("limit", limit a);
     ("category", category a);
     ("risk_level", risk_level a)]).

(** Lines 96-167: the body of the [try]. *)
Definition search_try (a : search_args) : M pyval :=
  p <- lift (coerce_search_args a) ;;
  query <- build_search_query p ;;
  docs <- lift (store_find query (limit_val p)) ;;
  let results := map (fun doc => VDict (serialize_document doc)) docs in
  ret (VDict (mkdict
         [("success", VBool true);
          ("query", VDict query);
          ("query_params", coerced_params p);
          ("results_count", VInt (Z.of_nat (List.length results)));
          ("results", VList results)])).

(** Lines 169-186: the [except Exception] handler. *)
Definition search_failure (a : search_args) (e : exn) : pyval :=
  VDict (mkdict
    [("success", VBool false);
     ("error", VStr (String.append "Search failed: " (format_exc e)));
     ("query_params", original_params a);
     ("results_count", VInt 0);
     ("results", VList [])]).

(** Lines 82-186. *)
Definition search_crime_events (a : search_args) (w : world) : pyval * world :=
  match search_try a w with
  | (inr response, w') => (response, w')
  | (inl e, w') => (search_failure a e, w')
  end.

(** Lines 197-200. *)
Definition coerce_stats_args (a : stats_args) : exc stats_params :=
  zipcode_val <-? (v <-? parse_val (s_zipcode a) TStr ;; as_opt_str v) ;;
  city_pid_val <-? (v <-? parse_val (s_city_pid a) TStr ;; as_opt_str v) ;;
  hours_val <-? effective_hours (s_hours_back a) ;;
  inr (StatsParams zipcode_val city_pid_val hours_val).

(** Lines 206-211: [if zipcode_val: ... elif city_pid_val: ...]. *)
Definition add_stats_location (zipcode_val city_pid_val : option string)
    (query : dict) : dict :=
  let otherwise :=
    match city_pid_val with
    | Some c =>
        if py_truthy (VStr c) then dset "city_pid" (VStr c) query else query
    | None => query
    end in
  match zipcode_val with
  | Some s =>
      if py_truthy (VStr s) then dset "zipcodes" (zipcode_clause s) query
      else otherwise
  | None => otherwise
  end.

(** Lines 205-212. *)
Definition assemble_stats_query (p : stats_params) (query : dict) : dict :=
  let query :=
    add_stats_location (sp_zipcode_val p) (sp_city_pid_val p) query in
  dset "address_type" (VStr "POI") query.

(** Lines 203-212. *)
Definition build_stats_query (p : stats_params) : M dict :=
  query <- build_time_query (sp_hours_val p) ;;
  ret (assemble_stats_query p query).

(** Lines 217-230. *)
Definition stats_pipeline (query : dict) : list pyval :=
  let acc (op field : string) := VDict (mkdict [(op, VStr field)]) in
  [VDict (mkdict [("$match", VDict query)]);
   VDict (mkdict
     [("$group",
       VDict (mkdict
         [("_id", VNone);
          ("total_events", VDict (mkdict [("$sum", VInt 1)]));
          ("categories", acc "$addToSet" "$category");
          ("risk_levels", acc "$push" "$risk");
          ("avg_audio_duration", acc "$avg" "$audio_duration");
          ("latest_event", acc "$max" "$updated_at");
          ("earliest_event", acc "$min" "$updated_at")]))])].

(** [stats.get(k, default)] at a string key. *)
Definition dget_default (k : string) (default : pyval) (d : dict) : pyval :=
  match dget k d with
  | Some v => v
  | None => default
  end.

(** The items a [for] loop draws from a value. *)
Definition py_iter (v : pyval) : exc (list pyval) :=
  match v with
  | VList l => inr l
  | VStr s =>
      inr (map (fun c => VStr (String c EmptyString)) (list_ascii_of_string s))
  | VDict d => inr (map fst d)
  | _ => raise TypeError "object is not iterable"
  end.

(** Line 249: [risk_distribution[risk] = risk_distribution.get(risk, 0) + 1].
    The values of this dictionary are ints by construction. *)
Definition tally_step (risk_distribution : list (pyval * Z)) (risk : pyval)
  : exc (list (pyval * Z)) :=
  if hashable risk then
    let n :=
      match assoc_get risk risk_distribution with
      | Some n => n
      | None => 0
      end in
    inr (assoc_set risk (n + 1) risk_distribution)
  else raise TypeError "unhashable type".

(** Lines 247-249. *)
Fixpoint tally (risks : list pyval) (risk_distribution : list (pyval * Z))
  : exc (list (pyval * Z)) :=
  match risks with
  | [] => inr risk_distribution
  | risk :: rest =>
      d <-? tally_step risk_distribution risk ;; tally rest d
  end.

Definition int_dict (d : list (pyval * Z)) : pyval :=
  VDict (map (fun kv => (fst kv, VInt (snd kv))) d).

(** [round(v, 2)] *)
Definition py_round2 (v : pyval) : exc pyval :=
  match v with
  | VBool b => inr (VInt (Z.b2z b))
  | VInt z => inr (VInt z)
  | VFloat f => inr (VFloat (round2 f))
  | _ =>
      raise TypeError
        (String.append "type "
           (String.append (type_name v) " doesn't define __round__ method"))
  end.

(** [v.isoformat() if v else None], lines 260 and 261. *)
Definition isoformat_or_none (v : pyval) : exc pyval :=
  if py_truthy v then
    match v with
    | VDatetime t u => inr (VStr (isoformat t u))
    | _ => raise AttributeError "object has no attribute 'isoformat'"
    end
  else inr VNone.

Definition stats_location (zipcode city_pid : pyval) : pyval :=
  VDict (mkdict [("zipcode", zipcode); ("city_pid", city_pid)]).

(** Lines 236-242. *)
Definition stats_empty (p : stats_params) : pyval :=
  VDict (mkdict
    [("success", VBool true);
     ("location",
      stats_location (of_opt_str (sp_zipcode_val p))
        (of_opt_str (sp_city_pid_val p)));
     ("time_period_hours", VInt (sp_hours_val p));
     ("total_events", VInt 0);
     ("statistics", VDict [])]).

(** Lines 244-263. *)
Definition stats_summary (p : stats_params) (stats : dict) : exc pyval :=
  risks <-? py_iter (dget_default "risk_levels" (VList []) stats) ;;
  risk_distribution <-? tally risks [] ;;
  avg <-? py_round2 (dget_default "avg_audio_duration" (VInt 0) stats) ;;
  latest <-? isoformat_or_none (dget_default "latest_event" VNone stats) ;;
  earliest <-? isoformat_or_none (dget_default "earliest_event" VNone stats) ;;
  inr (VDict (mkdict
    [("success", VBool true);
     ("location",
      stats_location (of_opt_str (sp_zipcode_val p))
        (of_opt_str (sp_city_pid_val p)));
     ("time_period_hours", VInt (sp_hours_val p));
     ("total_events", dget_default "total_events" (VInt 0) stats);
     ("statistics",
      VDict (mkdict
        [("categories", dget_default "categories" (VList []) stats);
         ("risk_distribution", int_dict risk_distribution);
         ("avg_audio_duration", avg);
         ("latest_event", latest);
         ("earliest_event", earliest)]))])).

(** Lines 196-263: the body of the [try]. *)
Definition stats_try (a : stats_args) : M pyval :=
  p <- lift (coerce_stats_args a) ;;
  query <- build_stats_query p ;;
  stats_result <- lift (store_aggregate (stats_pipeline query)) ;;
  match stats_result with
  | [] => ret (stats_empty p)
  | stats :: _ => lift (stats_summary p stats)
  end.

(** Lines 265-273: the [except Exception] handler; [str(e)] is the message
    of the exception. *)
Definition stats_failure (a : stats_args) (e : exn) : pyval :=
  VDict (mkdict
    [("success", VBool false);
     ("error", VStr (String.append "Statistics query failed: " (exn_msg e)));
     ("location", stats_location (s_zipcode a) (s_city_pid a));
     ("time_period_hours", s_hours_back a);
     ("total_events", VInt 0);
     ("statistics", VDict [])]).

(** Lines 189-273. *)
Definition get_crime_stats (a : stats_args) (w : world) : pyval * world :=
  match stats_try a w with
  | (inr response, w') => (response, w')
  | (inl e, w') => (stats_failure a e, w')
  end.

End Server.

(** A field of a response. *)
Definition resp_get (k : string) (response : pyval) : option pyval :=
  match response with
  | VDict d => dget k d
  | _ => None
  end.

(** The count kept for the string [s] in a tally, 0 when there is none. *)
Definition tally_of (s : string) (d : list (pyval * Z)) : Z :=
  match assoc_get (VStr s) d with
  | Some n => n
  | None => 0
  end.

(** How often [s] occurs in [l]. *)
Definition occurrences (s : string) (l : list string) : Z :=
  Z.of_nat (count_occ string_dec l s).

(** The group document of three matching events none of which has a numeric
    [audio_duration]: [$avg] is null. *)
Definition stats_without_duration : dict :=
  mkdict
    [("_id", VNone);
     ("total_events", VInt 3);
     ("categories", VList [VStr "Theft"]);
     ("risk_levels", VList [VStr "low"; VStr "low"; VStr "high"]);
     ("avg_audio_duration", VNone);
     ("latest_event", VDatetime 63929390000000000 false);
     ("earliest_event", VDatetime 63929380000000000 false)].

(** The keys a location predicate constrains. *)
Definition location_keys : list string := ["zipcodes"; "city_pid"; "geopoint"].

(** Two responses that agree on everything but the echoed parameters. *)
Definition same_outcome (r r' : pyval * world) : Prop :=
  snd r = snd r' /\
  Forall (fun k => resp_get k (fst r) = resp_get k (fst r'))
    ["success"; "error"; "query"; "results_count"; "results"].

Definition with_risk_val (r : option string) (p : search_params)
  : search_params :=
  {| zipcode_val := zipcode_val p; city_pid_val := city_pid_val p;
     latitude_val := latitude_val p; longitude_val := longitude_val p;
     radius_val := radius_val p; hours_val := hours_val p;
     limit_val := limit_val p; category_val := category_val p;
     risk_val := r |}.

(** A dictionary with the single entry [k: v], [k] a location key. *)
Definition location_clause (f : dict) : Prop :=
  exists k v, f = [(VStr k, v)] /\ In k location_keys.

(** ** Changing one argument of a call *)

Definition with_hours_back (v : pyval) (a : search_args) : search_args :=
  {| zipcode := zipcode a; city_pid := city_pid a; latitude := latitude a;
     longitude := longitude a; radius_km := radius_km a; hours_back := v;
     limit := limit a; category := category a; risk_level := risk_level a |}.

Definition with_limit (v : pyval) (a : search_args) : search_args :=
  {| zipcode := zipcode a; city_pid := city_pid a; latitude := latitude a;
     longitude := longitude a; radius_km := radius_km a;
     hours_back := hours_back a; limit := v; category := category a;
     risk_level := risk_level a |}.

Definition with_radius_km (v : pyval) (a : search_args) : search_args :=
  {| zipcode := zipcode a; city_pid := city_pid a; latitude := latitude a;
     longitude := longitude a; radius_km := v; hours_back := hours_back a;
     limit := limit a; category := category a; risk_level := risk_level a |}.

Definition with_risk_level (v : pyval) (a : search_args) : search_args :=
  {| zipcode := zipcode a; city_pid := city_pid a; latitude := latitude a;
     longitude := longitude a; radius_km := radius_km a;
     hours_back := hours_back a; limit := limit a; category := category a;
     risk_level := v |}.

Definition with_zipcode (v : pyval) (a : search_args) : search_args :=
  {| zipcode := v; city_pid := city_pid a; latitude := latitude a;
     longitude := longitude a; radius_km := radius_km a;
     hours_back := hours_back a; limit := limit a; category := category a;
     risk_level := risk_level a |}.

Definition with_point (lat lon : pyval) (a : search_args) : search_args :=
  {| zipcode := zipcode a; city_pid := city_pid a; latitude := lat;
     longitude := lon; radius_km := radius_km a; hours_back := hours_back a;
     limit := limit a; category := category a; risk_level := risk_level a |}.

Definition with_s_hours_back (v : pyval) (a : stats_args) : stats_args :=
  {| s_zipcode := s_zipcode a; s_city_pid := s_city_pid a; s_hours_back := v |}.

(** ** A sample environment

    The clock starts at 2026-11-04T12:00:00Z and advances by a microsecond
    per reading; the store answers every query with [found] and every
    aggregation with [aggregated].  [int_of_str] reads plain decimal
    numerals only, [float_of_str] reads nothing, and the renderings are
    stand-ins. *)

Definition sample_now : Z := 63929390400000000.

Definition sample_env (found aggregated : exc (list dict)) : Env :=
  {| int_max_str_digits := 4300;
     py_repr :=
       fun v => Some (String.append "<" (String.append (type_name v) ">"));
     int_of_str := fun s => option_map Z.of_int (NilZero.int_of_string s);
     float_of_str := fun _ => None;
     utc_clock := fun n => sample_now + Z.of_nat n;
     isoformat := fun t _ => String.append "us:" (string_of_Z t);
     round2 := fun f => f;
     format_exc :=
       fun e =>
         String.append "Traceback (most recent call last): [frames] "
           (exn_msg e);
     store_find := fun _ _ => found;
     store_aggregate := fun _ => aggregated |}.

(** The store is up and holds nothing that matches. *)
Definition quiet_env : Env := sample_env (inr []) (inr []).

(** The store cannot be reached. *)
Definition store_down : exn :=
  Exn (OtherError "ServerSelectionTimeoutError") "No servers found yet".

Definition down_env : Env := sample_env (inl store_down) (inl store_down).

(** The store answers the aggregation with [stats_without_duration]. *)
Definition no_duration_env : Env :=
  sample_env (inr []) (inr [stats_without_duration]).

Definition pos_inf : spec_float := S754_infinity false.

(** Coerced parameters with a zipcode and a point, nothing else. *)
Definition zip_and_point : search_params :=
  SearchParams (Some "95035") None (Some (float_of_Z 37))
    (Some (float_of_Z (-122))) five 24 10 None None.

(** [h] hours is a [timedelta], and [now] minus it a [datetime]. *)
Definition window_representable (now h : Z) : Prop :=
  Z.abs (h * us_per_hour / us_per_day) <= max_delta_days /\
  0 <= now - h * us_per_hour < max_ordinal * us_per_day.

(** ** Notions used by the further properties *)

(** The kinds [serialize_document] lets through or produces: bool, int,
    float, str, list, dict. *)
Definition json_kind (v : pyval) : bool :=
  match v with
  | VBool _ | VInt _ | VFloat _ | VStr _ | VList _ | VDict _ => true
  | VNone | VDatetime _ _ | VObj _ => false
  end.

(** No key of [d] equals, as a dictionary key, a key after it. *)
Fixpoint distinct_keys {V} (d : list (pyval * V)) : Prop :=
  match d with
  | [] => True
  | (k, _) :: r =>
      Forall (fun kv => key_eqb k (fst kv) = false) r /\ distinct_keys r
  end.

(** The sum of the counts of a tally. *)
Definition tally_total (d : list (pyval * Z)) : Z :=
  fold_right (fun kv n => snd kv + n) 0 d.

Definition starts_with_space (s : string) : bool :=
  match s with
  | String c _ => is_space c
  | EmptyString => false
  end.

Fixpoint ends_with_space (s : string) : bool :=
  match s with
  | EmptyString => false
  | String c EmptyString => is_space c
  | String _ r => ends_with_space r
  end.

Fixpoint count_commas (s : string) : nat :=
  match s with
  | EmptyString => O
  | String c r => if Ascii.eqb c "," then S (count_commas r) else count_commas r
  end.

(** [",".join(l)] *)
Fixpoint join_comma (l : list string) : string :=
  match l with
  | [] => EmptyString
  | [p] => p
  | p :: r => String.append p (String "," (join_comma r))
  end.

(** The pieces of the [$in] list of a zipcode clause. *)
Definition zipcodes_of (zipcode_val : string) : list string :=
  map strip (split_comma zipcode_val).

Definition without_point (p : search_params) : search_params :=
  {| zipcode_val := zipcode_val p; city_pid_val := city_pid_val p;
     latitude_val := None; longitude_val := None;
     radius_val := radius_val p; hours_val := hours_val p;
     limit_val := limit_val p; category_val := category_val p;
     risk_val := risk_val p |}.

(** Whether the variable holds a non-empty string. *)
Definition supplied (o : option string) : bool :=
  match o with
  | Some s => py_truthy (VStr s)
  | None => false
  end.

(** Whether the variable holds a risk level that lines 139-140 accept. *)
Definition recognised (o : option string) : bool :=
  match o with
  | Some s => str_in (lower s) risk_levels
  | None => false
  end.

(** A timestamp field of a group document: a datetime, or nothing. *)
Definition is_stamp (v : pyval) : bool :=
  match v with
  | VNone | VDatetime _ _ => true
  | _ => false
  end.

(** Two events as the store returns them, and a store that finds them. *)
Definition sample_event (id : string) (t : Z) : dict :=
  mkdict
    [("_id", VObj id);
     ("category", VStr "Theft");
     ("risk", VStr "low");
     ("zipcodes", VList [VStr "95035"]);
     ("updated_at", VDatetime t false);
     ("summary", VNone)].

Definition sample_events : list dict :=
  [sample_event "66f0a1" 63929390000000000;
   sample_event "66f0a0" 63929380000000000].

Definition found_env : Env := sample_env (inr sample_events) (inr []).

(** A group document with every field as MongoDB fills it. *)
Definition sample_group : dict :=
  mkdict
    [("_id", VNone);
     ("total_events", VInt 3);
     ("categories", VList [VStr "Theft"; VStr "Assault"]);
     ("risk_levels", VList (map VStr ["low"; "low"; "high"]));
     ("avg_audio_duration", VFloat (float_of_Z 12));
     ("latest_event", VDatetime 63929390000000000 false);
     ("earliest_event", VDatetime 63929380000000000 false)].

Definition grouped_env : Env := sample_env (inr []) (inr [sample_group]).

(** * Properties *)

(** Closes a goal that exhibits the exception a computation ended with. *)
Ltac raised := eexists; split; [|reflexivity]; reflexivity.

Section Helpers.
Context {E : Env}.

(** ** Dictionaries at string keys *)

Lemma key_eqb_str k s : key_eqb k (VStr s) = true -> k = VStr s.
Proof.
  destruct k; simpl; try discriminate.
  intros H. apply String.eqb_eq in H. now subst.
Qed.

Lemma assoc_get_set_same {V} k (v : V) d :
  assoc_get (VStr k) (assoc_set (VStr k) v d) = Some v.
Proof.
  induction d as [|[k0 v0] r IH]; simpl.
  - now rewrite String.eqb_refl.
  - destruct (key_eqb k0 (VStr k)) eqn:Hk; simpl; now rewrite Hk.
Qed.

Lemma assoc_get_set_other {V} k k' (v : V) d :
  k <> k' ->
  assoc_get (VStr k) (assoc_set (VStr k') v d) = assoc_get (VStr k) d.
Proof.
  intros Hne.
  induction d as [|[k0 v0] r IH]; simpl.
  - destruct (String.eqb_spec k' k); congruence.
  - destruct (key_eqb k0 (VStr k')) eqn:Hk'; simpl.
    + apply key_eqb_str in Hk'. subst k0. simpl.
      destruct (String.eqb_spec k' k); congruence.
    + now rewrite IH.
Qed.

Lemma dget_dset_same k v d : dget k (dset k v d) = Some v.
Proof. apply assoc_get_set_same. Qed.

Lemma dget_dset_other k k' v d : k <> k' -> dget k (dset k' v d) = dget k d.
Proof. apply assoc_get_set_other. Qed.

Lemma dict_update_single d k v : dict_update d [(k, v)] = assoc_set k v d.
Proof. reflexivity. Qed.

Lemma dget_str k (d : dict) : assoc_get (VStr k) d = dget k d.
Proof. reflexivity. Qed.

Lemma dset_str k v (d : dict) : assoc_set (VStr k) v d = dset k v d.
Proof. reflexivity. Qed.

Lemma dget_add_category k c q :
  k <> "category" -> dget k (add_category c q) = dget k q.
Proof.
  intros Hk. unfold add_category.
  destruct c as [s|]; [destruct (py_truthy (VStr s))|]; trivial.
  now apply dget_dset_other.
Qed.

Lemma dget_add_risk k r q : k <> "risk" -> dget k (add_risk r q) = dget k q.
Proof.
  intros Hk. unfold add_risk.
  destruct r as [s|]; trivial.
  destruct (py_truthy (VStr s) && str_in (lower s) risk_levels); trivial.
  now apply dget_dset_other.
Qed.

(** ** [parse_val] *)

Lemma parse_val_none t : parse_val VNone t = inr VNone.
Proof. reflexivity. Qed.

(** [parse_val(v, str)] never raises: it gives [None] or a [str]. *)
Lemma parse_val_str_cases v :
  parse_val v TStr = inr VNone \/
  exists s, py_str v = inr s /\ parse_val v TStr = inr (VStr s).
Proof.
  destruct v as [|b|z|f|s|l|d|t u|s]; simpl; eauto.
  - destruct b; eauto.
  - destruct ((0 <? int_max_str_digits) && _); simpl; eauto.
  - destruct (py_repr (VFloat f)); simpl; eauto.
  - destruct (py_repr (VList l)); simpl; eauto.
  - destruct (py_repr (VDict d)); simpl; eauto.
  - destruct (py_repr (VDatetime t u)); simpl; eauto.
Qed.

Lemma parse_val_str_of_str s : parse_val (VStr s) TStr = inr (VStr s).
Proof. reflexivity. Qed.

(** What [parse_val(v, int)] can do: give [None], give an int, or let the
    [OverflowError] of an infinite float through. *)
Lemma parse_val_int_cases v :
  parse_val v TInt = inr VNone \/
  (exists z, py_int v = inr z /\ parse_val v TInt = inr (VInt z)) \/
  (exists s, v = VFloat (S754_infinity s) /\
             parse_val v TInt =
               raise OverflowError "cannot convert float infinity to integer").
Proof.
  destruct v as [|b|z|f|s|l|d|t u|s]; simpl; eauto.
  - destruct f; simpl; eauto.
  - destruct (int_of_str s); simpl; eauto.
Qed.

(** What [parse_val(v, float)] can do: give [None], give a float, or let
    the [OverflowError] of a too large int through. *)
Lemma parse_val_float_cases v :
  parse_val v TFloat = inr VNone \/
  (exists f, py_float v = inr f /\ parse_val v TFloat = inr (VFloat f)) \/
  (exists z, v = VInt z /\
             parse_val v TFloat =
               raise OverflowError "int too large to convert to float").
Proof.
  destruct v as [|b|z|f|s|l|d|t u|s]; simpl; eauto.
  - unfold float_of_int. destruct (float_of_Z z); simpl; eauto 6.
  - destruct (float_of_str s); simpl; eauto.
Qed.

Lemma parse_val_list_str s :
  parse_val (VStr s) TList =
    inr (VList (map (fun v => VStr (strip v)) (split_comma s))).
Proof. reflexivity. Qed.

Lemma parse_val_list_list l : parse_val (VList l) TList = inr (VList l).
Proof. reflexivity. Qed.

Lemma parse_val_list_other v :
  v <> VNone -> (forall s, v <> VStr s) -> (forall l, v <> VList l) ->
  parse_val v TList = inr (VList [v]).
Proof. destruct v; simpl; congruence. Qed.

(** ** The three defaults applied with [or] *)

Lemma effective_limit_cases v :
  match parse_val v TInt with
  | inl e => effective_limit v = inl e
  | inr VNone => effective_limit v = inr 10
  | inr (VInt z) => effective_limit v = inr (if z =? 0 then 10 else Z.min z 100)
  | inr _ => False
  end.
Proof.
  unfold effective_limit.
  destruct (parse_val_int_cases v) as [H|[(z & _ & H)|(s & _ & H)]];
    rewrite H; simpl; trivial.
  unfold py_or; simpl. now destruct (z =? 0).
Qed.

Lemma effective_hours_cases v :
  match parse_val v TInt with
  | inl e => effective_hours v = inl e
  | inr VNone => effective_hours v = inr 24
  | inr (VInt z) => effective_hours v = inr (if z =? 0 then 24 else z)
  | inr _ => False
  end.
Proof.
  unfold effective_hours.
  destruct (parse_val_int_cases v) as [H|[(z & _ & H)|(s & _ & H)]];
    rewrite H; simpl; trivial.
  unfold py_or; simpl. now destruct (z =? 0).
Qed.

Lemma effective_radius_cases v :
  match parse_val v TFloat with
  | inl e => effective_radius v = inl e
  | inr VNone => effective_radius v = inr five
  | inr (VFloat f) =>
      effective_radius v = inr (if float_is_zero f then five else f)
  | inr _ => False
  end.
Proof.
  unfold effective_radius.
  destruct (parse_val_float_cases v) as [H|[(f & _ & H)|(z & _ & H)]];
    rewrite H; simpl; trivial.
  unfold py_or; simpl. now destruct (float_is_zero f).
Qed.

End Helpers.

(** ** Coercion and defaults *)

Section Coercion.
Context {E : Env}.

(** C6 (a defect of the code): [parse_val] does raise.  Its handler names
    [ValueError] and [TypeError] only, so the [OverflowError] of
    [int(float('inf'))] and of [float(10**400)] leaves the function. *)
Theorem parse_val_lets_overflow_through :
  parse_val (VFloat pos_inf) TInt =
    raise OverflowError "cannot convert float infinity to integer" /\
  parse_val (VInt (10 ^ 400)) TFloat =
    raise OverflowError "int too large to convert to float".
Proof. split; vm_compute; reflexivity. Qed.

(** The parts of C6 that hold: [None] stays [None]; a numeric coercion that
    returns gives [None] or the converted number; text is split on commas and
    trimmed, a list passes through, anything else is wrapped. *)
Lemma parse_val_contract (v : pyval) :
  (forall t, parse_val VNone t = inr VNone) /\
  (forall r, parse_val v TInt = inr r ->
     r = VNone \/ exists z, py_int v = inr z /\ r = VInt z) /\
  (forall r, parse_val v TFloat = inr r ->
     r = VNone \/ exists f, py_float v = inr f /\ r = VFloat f) /\
  (forall s, parse_val (VStr s) TList =
     inr (VList (map (fun x => VStr (strip x)) (split_comma s)))) /\
  (forall l, parse_val (VList l) TList = inr (VList l)) /\
  (v <> VNone -> (forall s, v <> VStr s) -> (forall l, v <> VList l) ->
     parse_val v TList = inr (VList [v])).
Proof.
  repeat split; trivial.
  - intros r Hr.
    destruct (parse_val_int_cases v) as [H|[(z & Hz & H)|(s & _ & H)]];
      rewrite H in Hr; inversion Hr; eauto.
  - intros r Hr.
    destruct (parse_val_float_cases v) as [H|[(f & Hf & H)|(z & _ & H)]];
      rewrite H in Hr; inversion Hr; eauto.
  - apply parse_val_list_other.
Qed.

(** C1 (amended): the effective limit is [min(coerced_limit or 10, 100)].
    It never exceeds 100; [limit=500] gives 100 and [limit=None] gives 10;
    it is at least 1 unless the coerced limit is negative, and a negative
    limit comes out unchanged.  Only an infinite float leaves the call
    without an effective limit. *)
Theorem effective_limit_capped :
  effective_limit (VInt 500) = inr 100 /\
  effective_limit VNone = inr 10 /\
  (forall limit n, effective_limit limit = inr n ->
     n <= 100 /\
     (1 <= n \/ (n < 0 /\ parse_val limit TInt = inr (VInt n)))) /\
  (forall limit,
     (exists n, effective_limit limit = inr n) \/
     (exists s, limit = VFloat (S754_infinity s))).
Proof.
  split; [reflexivity|]. split; [reflexivity|]. split.
  - intros v n Hn. pose proof (effective_limit_cases v) as H.
    destruct (parse_val v TInt) as [e|[|b|z|f|s|l|d|t u|s]];
      try contradiction; rewrite H in Hn; inversion Hn; subst; clear Hn.
    + lia.
    + destruct (Z.eqb_spec z 0); [lia|].
      split; [lia|].
      destruct (Z_lt_le_dec z 0) as [Hz|Hz].
      * right. rewrite Z.min_l by lia. split; [lia|reflexivity].
      * left. lia.
  - intros v. pose proof (effective_limit_cases v) as H.
    destruct (parse_val_int_cases v) as [Hp|[(z & _ & Hp)|(s & Hv & _)]];
      [rewrite Hp in H; eauto .. | eauto].
Qed.

(** C10: a numeric parameter that coerces to zero is replaced by the default
    (24 hours, limit 10, radius 5.0), in both tools, so the body of the call
    runs exactly as it does for [None] and for the default of the
    signature. *)
Theorem falsy_numeric_defaults :
  (forall v, parse_val v TInt = inr (VInt 0) ->
     effective_hours v = inr 24 /\ effective_limit v = inr 10) /\
  (forall v s, parse_val v TFloat = inr (VFloat (S754_zero s)) ->
     effective_radius v = inr five) /\
  (forall a w,
     search_try (with_hours_back (VInt 0) a) w =
       search_try (with_hours_back VNone a) w /\
     search_try (with_hours_back (VInt 0) a) w =
       search_try (with_hours_back (VInt 24) a) w /\
     search_try (with_limit (VInt 0) a) w =
       search_try (with_limit VNone a) w /\
     search_try (with_limit (VInt 0) a) w =
       search_try (with_limit (VInt 10) a) w /\
     search_try (with_radius_km (VInt 0) a) w =
       search_try (with_radius_km VNone a) w /\
     search_try (with_radius_km (VFloat (S754_zero false)) a) w =
       search_try (with_radius_km (VFloat five) a) w) /\
  (forall a w,
     stats_try (with_s_hours_back (VInt 0) a) w =
       stats_try (with_s_hours_back VNone a) w /\
     stats_try (with_s_hours_back (VInt 0) a) w =
       stats_try (with_s_hours_back (VInt 24) a) w).
Proof.
  split; [|split; [|split]].
  - intros v H.
    pose proof (effective_hours_cases v) as Hh.
    pose proof (effective_limit_cases v) as Hl.
    rewrite H in Hh, Hl. now split.
  - intros v s H. pose proof (effective_radius_cases v) as Hr.
    now rewrite H in Hr.
  - intros a w. repeat (split; [reflexivity|]). reflexivity.
  - intros a w. split; reflexivity.
Qed.

End Coercion.

(** C1 (as stated, refuted): [limit=-5] gives the effective limit -5, which
    is outside [1, 100]. *)
Lemma effective_limit_negative :
  effective_limit (E := quiet_env) (VInt (-5)) = inr (-5) /\
  ~ (1 <= -5 <= 100).
Proof. split; [reflexivity | lia]. Qed.

Lemma effective_limit_capped_witness :
  effective_limit (E := quiet_env) (VInt 250) = inr 100 /\
  100 <= 100 /\
  (1 <= 100 \/
   (100 < 0 /\ parse_val (E := quiet_env) (VInt 250) TInt = inr (VInt 100))).
Proof.
  split; [reflexivity|].
  apply (proj1 (proj2 (proj2 (effective_limit_capped (E := quiet_env))))
           (VInt 250) 100).
  reflexivity.
Defined.

Lemma falsy_numeric_defaults_witness :
  effective_hours (E := quiet_env) (VStr "0") = inr 24 /\
  effective_limit (E := quiet_env) (VStr "0") = inr 10.
Proof.
  apply (proj1 (falsy_numeric_defaults (E := quiet_env)) (VStr "0")).
  reflexivity.
Defined.

(** ** The time window *)

Section TimeWindow.
Context {E : Env}.

Lemma window_representable_cases now h :
  window_representable now h \/ ~ window_representable now h.
Proof.
  unfold window_representable.
  destruct (Z_le_dec (Z.abs (h * us_per_hour / us_per_day)) max_delta_days);
    destruct (Z_le_dec 0 (now - h * us_per_hour));
    destruct (Z_lt_dec (now - h * us_per_hour) (max_ordinal * us_per_day));
    tauto.
Qed.

Lemma build_time_query_ok h w :
  window_representable (utc_clock (clock_reads w)) h ->
  build_time_query h w =
    (inr (time_window (utc_clock (clock_reads w) - h * us_per_hour)
            (utc_clock (clock_reads w))), tick w).
Proof.
  intros [Hd [Hlo Hhi]].
  unfold build_time_query, bind, datetime_now_utc, lift, ret; simpl.
  unfold timedelta_hours.
  apply Z.leb_le in Hd. rewrite Hd. simpl.
  unfold datetime_sub.
  apply Z.leb_le in Hlo. apply Z.ltb_lt in Hhi. rewrite Hlo, Hhi. reflexivity.
Qed.

Lemma build_time_query_overflow h w :
  ~ window_representable (utc_clock (clock_reads w)) h ->
  exists e, exn_cls e = OverflowError /\ build_time_query h w = (inl e, tick w).
Proof.
  intros Hn.
  unfold build_time_query, bind, datetime_now_utc, lift, ret; simpl.
  unfold timedelta_hours.
  destruct (Z.leb_spec (Z.abs (h * us_per_hour / us_per_day)) max_delta_days)
    as [Hd|Hd]; simpl; [|raised].
  unfold datetime_sub.
  destruct (Z.leb_spec 0 (utc_clock (clock_reads w) - h * us_per_hour));
    destruct (Z.ltb_spec (utc_clock (clock_reads w) - h * us_per_hour)
                (max_ordinal * us_per_day));
    simpl; try raised.
  exfalso. apply Hn. unfold window_representable. lia.
Qed.

(** C2 (amended): when [h] hours can be taken off the current instant, the
    clause has [$lte] equal to the one reading of the clock and [$gte] equal
    to that reading minus [h] hours; otherwise the construction raises
    [OverflowError] and there is no clause.  The clock is read once either
    way. *)
Theorem build_time_query_window (h : Z) (w : world) :
  (window_representable (utc_clock (clock_reads w)) h ->
   build_time_query h w =
     (inr (time_window (utc_clock (clock_reads w) - h * us_per_hour)
             (utc_clock (clock_reads w))), tick w)) /\
  (~ window_representable (utc_clock (clock_reads w)) h ->
   exists e,
     exn_cls e = OverflowError /\ build_time_query h w = (inl e, tick w)).
Proof.
  split; [apply build_time_query_ok | apply build_time_query_overflow].
Qed.

End TimeWindow.

(** C2 (as stated, refuted): with [hours_back] = 100000000 at
    2026-11-04T12:00:00Z the start of the window would lie before year 1;
    [build_time_query] raises and no clause is built. *)
Lemma build_time_query_far_past :
  build_time_query (E := quiet_env) 100000000 (World 0) =
    (raise OverflowError "date value out of range", World 1).
Proof. reflexivity. Qed.

Lemma build_time_query_window_witness :
  build_time_query (E := quiet_env) 24 (World 0) =
    (inr (time_window 63929304000000000 63929390400000000), World 1).
Proof.
  apply (proj1 (build_time_query_window (E := quiet_env) 24 (World 0))).
  unfold window_representable. simpl. vm_compute.
  repeat split; discriminate.
Defined.

(** ** The queries *)

Section Queries.
Context {E : Env}.

Lemma build_search_query_cases p w :
  (window_representable (utc_clock (clock_reads w)) (hours_val p) /\
   build_search_query p w =
     (inr (assemble_search_query p
             (time_window
                (utc_clock (clock_reads w) - hours_val p * us_per_hour)
                (utc_clock (clock_reads w)))), tick w)) \/
  (exists e,
     exn_cls e = OverflowError /\ build_search_query p w = (inl e, tick w)).
Proof.
  destruct (window_representable_cases (utc_clock (clock_reads w)) (hours_val p))
    as [H|H].
  - left. split; trivial.
    unfold build_search_query, bind. now rewrite build_time_query_ok.
  - right. destruct (build_time_query_overflow _ _ H) as (e & He & Hb).
    exists e. split; trivial.
    unfold build_search_query, bind. now rewrite Hb.
Qed.

Lemma build_stats_query_cases p w :
  (window_representable (utc_clock (clock_reads w)) (sp_hours_val p) /\
   build_stats_query p w =
     (inr (assemble_stats_query p
             (time_window
                (utc_clock (clock_reads w) - sp_hours_val p * us_per_hour)
                (utc_clock (clock_reads w)))), tick w)) \/
  (exists e,
     exn_cls e = OverflowError /\ build_stats_query p w = (inl e, tick w)).
Proof.
  destruct (window_representable_cases (utc_clock (clock_reads w))
              (sp_hours_val p)) as [H|H].
  - left. split; trivial.
    unfold build_stats_query, bind. now rewrite build_time_query_ok.
  - right. destruct (build_time_query_overflow _ _ H) as (e & He & Hb).
    exists e. split; trivial.
    unfold build_stats_query, bind. now rewrite Hb.
Qed.

(** A query is built whenever the window can be represented. *)
Lemma build_search_query_total p w :
  window_representable (utc_clock (clock_reads w)) (hours_val p) ->
  exists query, build_search_query p w = (inr query, tick w).
Proof.
  intros Hw. unfold build_search_query, bind.
  rewrite (build_time_query_ok _ _ Hw). eexists. reflexivity.
Qed.

Lemma dget_time_window_other k s e :
  k <> "updated_at" -> dget k (dict_update [] (time_window s e)) = None.
Proof.
  intros Hk. unfold dget, time_window.
  cbn [dict_update mkdict map fold_left assoc_set assoc_get key_eqb fst snd].
  destruct (String.eqb_spec "updated_at" k); congruence.
Qed.

Lemma location_filters_clauses p : Forall location_clause (location_filters p).
Proof.
  unfold location_filters, location_clause, location_keys.
  rewrite !Forall_app. repeat split.
  - destruct (zipcode_val p) as [s|]; [destruct (py_truthy (VStr s))|];
      repeat constructor.
    do 2 eexists. split; [reflexivity | simpl; auto].
  - destruct (city_pid_val p) as [s|]; [destruct (py_truthy (VStr s))|];
      repeat constructor.
    do 2 eexists. split; [reflexivity | simpl; auto].
  - destruct (latitude_val p), (longitude_val p); repeat constructor.
    do 2 eexists. split; [reflexivity | simpl; auto].
Qed.

Lemma dget_add_location k fs q :
  Forall location_clause fs -> ~ In k location_keys -> k <> "$or" ->
  dget k (add_location fs q) = dget k q.
Proof.
  intros Hfs Hk Hor.
  destruct fs as [|f [|g r]]; cbn [add_location]; trivial.
  - inversion Hfs as [|? ? (k0 & v0 & -> & Hk0) _]; subst.
    rewrite dict_update_single, dset_str. apply dget_dset_other. congruence.
  - now apply dget_dset_other.
Qed.

Lemma dget_add_stats_location k z c q :
  k <> "zipcodes" -> k <> "city_pid" ->
  dget k (add_stats_location z c q) = dget k q.
Proof.
  intros Hz Hc. unfold add_stats_location.
  destruct z as [s|]; [destruct (py_truthy (VStr s))|];
    try (now apply dget_dset_other);
    (destruct c as [t|]; [destruct (py_truthy (VStr t))|]); trivial;
    now apply dget_dset_other.
Qed.

(** A location key is none of the other keys of a query. *)
Lemma location_key_fresh k :
  In k location_keys ->
  k <> "$or" /\ k <> "category" /\ k <> "risk" /\ k <> "address_type" /\
  k <> "updated_at".
Proof.
  unfold location_keys. simpl.
  intros [<-|[<-|[<-|[]]]]; repeat split; discriminate.
Qed.

(** C3: with no location predicate the query has no location constraint;
    with exactly one, its clause sits at the top level of the query and
    there is no [$or]; with two or more, the list of clauses sits under
    [$or] at the top level and none of them is merged on its own. *)
Theorem location_predicates_combine (p : search_params) (w : world) :
  match build_search_query p w with
  | (inl e, _) => exn_cls e = OverflowError
  | (inr query, _) =>
      match location_filters p with
      | [] =>
          dget "$or" query = None /\
          Forall (fun k => dget k query = None) location_keys
      | [f] =>
          (forall k v, In (k, v) f -> assoc_get k query = Some v) /\
          dget "$or" query = None
      | fs =>
          dget "$or" query = Some (VList (map VDict fs)) /\
          Forall (fun k => dget k query = None) location_keys
      end
  end.
Proof.
  destruct (build_search_query_cases p w) as [[_ ->]|(e & He & ->)]; trivial.
  unfold assemble_search_query.
  set (base := dict_update [] (time_window _ _)).
  assert (Hbase : forall k, k <> "updated_at" -> dget k base = None)
    by (intros k Hk; now apply dget_time_window_other).
  pose proof (location_filters_clauses p) as Hfs.
  destruct (location_filters p) as [|f [|g r]]; cbn [add_location].
  - split; [|repeat constructor];
      rewrite dget_dset_other, dget_add_risk, dget_add_category
        by discriminate; apply Hbase; discriminate.
  - inversion Hfs as [|? ? (k0 & v0 & -> & Hk0) _]; subst.
    destruct (location_key_fresh _ Hk0) as (Hor & Hcat & Hrisk & Haddr & Hupd).
    rewrite dict_update_single, dset_str.
    split.
    + intros k v [Hkv|[]]. inversion Hkv; subst k v.
      rewrite dget_str, dget_dset_other, dget_add_risk, dget_add_category
        by trivial.
      apply dget_dset_same.
    + rewrite dget_dset_other, dget_add_risk, dget_add_category,
        dget_dset_other by first [discriminate | congruence].
      apply Hbase. discriminate.
  - split.
    + rewrite dget_dset_other, dget_add_risk, dget_add_category by discriminate.
      apply dget_dset_same.
    + repeat constructor;
        rewrite dget_dset_other, dget_add_risk, dget_add_category,
          dget_dset_other by discriminate; apply Hbase; discriminate.
Qed.

(** ** What coercion can raise *)

Lemma str_field_total v :
  exists o, (x <-? parse_val v TStr ;; as_opt_str x) = inr o.
Proof.
  destruct (parse_val_str_cases v) as [H|(s & _ & H)]; rewrite H; simpl; eauto.
Qed.

Lemma float_field_cases v :
  (exists o, (x <-? parse_val v TFloat ;; as_opt_float x) = inr o) \/
  (exists e, exn_cls e = OverflowError /\
             (x <-? parse_val v TFloat ;; as_opt_float x) = inl e).
Proof.
  destruct (parse_val_float_cases v) as [H|[(f & _ & H)|(z & _ & H)]];
    rewrite H; simpl; eauto.
  right. raised.
Qed.

Lemma effective_radius_total v :
  (exists r, effective_radius v = inr r) \/
  (exists e, exn_cls e = OverflowError /\ effective_radius v = inl e).
Proof.
  pose proof (effective_radius_cases v) as H.
  destruct (parse_val_float_cases v) as [Hp|[(f & _ & Hp)|(z & _ & Hp)]];
    rewrite Hp in H; rewrite H; eauto.
  right. raised.
Qed.

Lemma effective_hours_total v :
  (exists n, effective_hours v = inr n) \/
  (exists e, exn_cls e = OverflowError /\ effective_hours v = inl e).
Proof.
  pose proof (effective_hours_cases v) as H.
  destruct (parse_val_int_cases v) as [Hp|[(z & _ & Hp)|(b & _ & Hp)]];
    rewrite Hp in H; rewrite H; eauto.
  right. raised.
Qed.

Lemma effective_limit_total v :
  (exists n, effective_limit v = inr n) \/
  (exists e, exn_cls e = OverflowError /\ effective_limit v = inl e).
Proof.
  pose proof (effective_limit_cases v) as H.
  destruct (parse_val_int_cases v) as [Hp|[(z & _ & Hp)|(b & _ & Hp)]];
    rewrite Hp in H; rewrite H; eauto.
  right. raised.
Qed.

(** Splits on the outcome of one numeric coercion; an [OverflowError] ends
    the goal. *)
Ltac coercion_step H :=
  destruct H as [(? & ->)|(? & ? & ->)]; cbn [ebind];
  [|intros ? [= <-]; assumption].

(** A text coercion always returns. *)
Ltac text_step v := destruct (str_field_total v) as (? & ->); cbn [ebind].

Lemma coerce_search_args_error a e :
  coerce_search_args a = inl e -> exn_cls e = OverflowError.
Proof.
  revert e. unfold coerce_search_args.
  text_step (zipcode a). text_step (city_pid a).
  coercion_step (float_field_cases (latitude a)).
  coercion_step (float_field_cases (longitude a)).
  coercion_step (effective_radius_total (radius_km a)).
  coercion_step (effective_hours_total (hours_back a)).
  coercion_step (effective_limit_total (limit a)).
  text_step (category a). text_step (risk_level a).
  discriminate.
Qed.

Lemma coerce_stats_args_error a e :
  coerce_stats_args a = inl e -> exn_cls e = OverflowError.
Proof.
  revert e. unfold coerce_stats_args.
  text_step (s_zipcode a). text_step (s_city_pid a).
  coercion_step (effective_hours_total (s_hours_back a)).
  discriminate.
Qed.

(** C4: whenever either tool builds a query, the query holds the time
    window on [updated_at], from the reading of the clock back by the
    effective number of hours, and [address_type] is "POI".  The one way
    not to build a query is an [OverflowError], of a numeric coercion or of
    a window that cannot be represented. *)
Theorem query_invariant (a : search_args) (sa : stats_args) (w : world) :
  match coerce_search_args a with
  | inl e => exn_cls e = OverflowError
  | inr p =>
      match build_search_query p w with
      | (inl e, _) => exn_cls e = OverflowError
      | (inr query, _) =>
          dget "updated_at" query =
            Some (time_range
                    (utc_clock (clock_reads w) - hours_val p * us_per_hour)
                    (utc_clock (clock_reads w))) /\
          dget "address_type" query = Some (VStr "POI")
      end
  end /\
  match coerce_stats_args sa with
  | inl e => exn_cls e = OverflowError
  | inr p =>
      match build_stats_query p w with
      | (inl e, _) => exn_cls e = OverflowError
      | (inr query, _) =>
          dget "updated_at" query =
            Some (time_range
                    (utc_clock (clock_reads w) - sp_hours_val p * us_per_hour)
                    (utc_clock (clock_reads w))) /\
          dget "address_type" query = Some (VStr "POI")
      end
  end.
Proof.
  split.
  - destruct (coerce_search_args a) as [e|p] eqn:Hc;
      [now apply (coerce_search_args_error a)|].
    destruct (build_search_query_cases p w) as [[_ ->]|(e & He & ->)]; trivial.
    unfold assemble_search_query. split; [|apply dget_dset_same].
    rewrite dget_dset_other, dget_add_risk, dget_add_category,
      dget_add_location;
      first [discriminate | apply location_filters_clauses | idtac].
    + reflexivity.
    + unfold location_keys. simpl. intuition discriminate.
  - destruct (coerce_stats_args sa) as [e|p] eqn:Hc;
      [now apply (coerce_stats_args_error sa)|].
    destruct (build_stats_query_cases p w) as [[_ ->]|(e & He & ->)]; trivial.
    unfold assemble_stats_query. split; [|apply dget_dset_same].
    now rewrite dget_dset_other, dget_add_stats_location by discriminate.
Qed.

End Queries.

Lemma location_predicates_combine_witness :
  exists query,
    build_search_query (E := quiet_env) zip_and_point (World 0) =
      (inr query, World 1) /\
    dget "$or" query =
      Some (VList
              [VDict (mkdict [("zipcodes", zipcode_clause "95035")]);
               VDict (build_geo_query (float_of_Z 37) (float_of_Z (-122))
                        five)]) /\
    Forall (fun k => dget k query = None) location_keys.
Proof.
  eexists. split; [reflexivity|].
  exact (location_predicates_combine (E := quiet_env) zip_and_point (World 0)).
Defined.

Lemma query_invariant_witness :
  exists search_query stats_query,
    build_search_query (E := quiet_env) zip_and_point (World 0) =
      (inr search_query, World 1) /\
    build_stats_query (E := quiet_env) (StatsParams None None 24) (World 0) =
      (inr stats_query, World 1) /\
    (dget "updated_at" search_query =
       Some (time_range 63929304000000000 63929390400000000) /\
     dget "address_type" search_query = Some (VStr "POI")) /\
    (dget "updated_at" stats_query =
       Some (time_range 63929304000000000 63929390400000000) /\
     dget "address_type" stats_query = Some (VStr "POI")).
Proof.
  do 2 eexists. split; [reflexivity|]. split; [reflexivity|].
  exact (query_invariant (E := quiet_env)
           (with_point (VInt 37) (VInt (-122))
              (with_zipcode (VStr "95035") search_defaults))
           stats_defaults (World 0)).
Defined.

(** ** The risk level *)

Section RiskLevel.
Context {E : Env}.

Lemma recognised_nonempty s :
  str_in (lower s) risk_levels = true -> py_truthy (VStr s) = true.
Proof. destruct s; [discriminate | reflexivity]. Qed.

Lemma dget_risk_assemble p tq :
  dget "risk" (assemble_search_query p (time_window (fst tq) (snd tq))) =
    match risk_val p with
    | Some s =>
        if str_in (lower s) risk_levels then Some (VStr (lower s)) else None
    | None => None
    end.
Proof.
  unfold assemble_search_query.
  rewrite dget_dset_other by discriminate.
  assert (Hrest : dget "risk"
            (add_category (category_val p)
               (add_location (location_filters p)
                  (dict_update [] (time_window (fst tq) (snd tq))))) = None).
  { rewrite dget_add_category, dget_add_location;
      first [discriminate | apply location_filters_clauses | idtac].
    - now apply dget_time_window_other.
    - unfold location_keys. simpl. intuition discriminate. }
  unfold add_risk. destruct (risk_val p) as [s|]; trivial.
  destruct (str_in (lower s) risk_levels) eqn:Hs.
  - rewrite (recognised_nonempty _ Hs). apply dget_dset_same.
  - now rewrite andb_false_r.
Qed.

(** The risk level is the last argument coerced, so a call with
    [risk_level=s] coerces as the call without it does, the string apart. *)
Lemma coerce_search_args_risk a s :
  coerce_search_args (with_risk_level (VStr s) a) =
    (p <-? coerce_search_args (with_risk_level VNone a) ;;
     inr (with_risk_val (Some s) p)).
Proof.
  unfold coerce_search_args. cbn [with_risk_level zipcode city_pid latitude
    longitude radius_km hours_back limit category risk_level].
  destruct (x <-? parse_val (zipcode a) TStr ;; as_opt_str x);
    cbn [ebind]; trivial.
  destruct (x <-? parse_val (city_pid a) TStr ;; as_opt_str x);
    cbn [ebind]; trivial.
  destruct (x <-? parse_val (latitude a) TFloat ;; as_opt_float x);
    cbn [ebind]; trivial.
  destruct (x <-? parse_val (longitude a) TFloat ;; as_opt_float x);
    cbn [ebind]; trivial.
  destruct (effective_radius (radius_km a)); cbn [ebind]; trivial.
  destruct (effective_hours (hours_back a)); cbn [ebind]; trivial.
  destruct (effective_limit (limit a)); cbn [ebind]; trivial.
  destruct (x <-? parse_val (category a) TStr ;; as_opt_str x);
    cbn [ebind]; trivial.
Qed.

Lemma coerce_search_args_no_risk a p :
  coerce_search_args (with_risk_level VNone a) = inr p -> risk_val p = None.
Proof.
  unfold coerce_search_args. cbn [with_risk_level zipcode city_pid latitude
    longitude radius_km hours_back limit category risk_level].
  destruct (x <-? parse_val (zipcode a) TStr ;; as_opt_str x);
    cbn [ebind]; [discriminate|].
  destruct (x <-? parse_val (city_pid a) TStr ;; as_opt_str x);
    cbn [ebind]; [discriminate|].
  destruct (x <-? parse_val (latitude a) TFloat ;; as_opt_float x);
    cbn [ebind]; [discriminate|].
  destruct (x <-? parse_val (longitude a) TFloat ;; as_opt_float x);
    cbn [ebind]; [discriminate|].
  destruct (effective_radius (radius_km a)); cbn [ebind]; [discriminate|].
  destruct (effective_hours (hours_back a)); cbn [ebind]; [discriminate|].
  destruct (effective_limit (limit a)); cbn [ebind]; [discriminate|].
  destruct (x <-? parse_val (category a) TStr ;; as_opt_str x);
    cbn [ebind]; [discriminate|].
  now intros [= <-].
Qed.

Lemma build_search_query_unrecognised p s w :
  risk_val p = None -> str_in (lower s) risk_levels = false ->
  build_search_query (with_risk_val (Some s) p) w = build_search_query p w.
Proof.
  intros Hp Hs. unfold build_search_query, assemble_search_query.
  change (hours_val (with_risk_val (Some s) p)) with (hours_val p).
  change (location_filters (with_risk_val (Some s) p))
    with (location_filters p).
  change (category_val (with_risk_val (Some s) p)) with (category_val p).
  change (risk_val (with_risk_val (Some s) p)) with (Some s).
  rewrite Hp. unfold add_risk. now rewrite Hs, andb_false_r.
Qed.

Lemma same_outcome_failure a a' e w :
  same_outcome (search_failure a e, w) (search_failure a' e, w).
Proof. split; [reflexivity | repeat constructor]. Qed.

(** C5: a supplied risk level [s] whose lower-cased form is "low", "medium"
    or "high" puts [risk = lower(s)] in the query; any other string puts no
    risk filter there, and the call then ends as the call without a risk
    level does: same success flag, error, query, count and results. *)
Theorem risk_level_filter (a : search_args) (s : string) (w : world) :
  match coerce_search_args (with_risk_level (VStr s) a) with
  | inl e => exn_cls e = OverflowError
  | inr p =>
      risk_val p = Some s /\
      match build_search_query p w with
      | (inl e, _) => exn_cls e = OverflowError
      | (inr query, _) =>
          dget "risk" query =
            if str_in (lower s) risk_levels then Some (VStr (lower s))
            else None
      end
  end /\
  (if str_in (lower s) risk_levels then True
   else same_outcome (search_crime_events (with_risk_level (VStr s) a) w)
          (search_crime_events (with_risk_level VNone a) w)).
Proof.
  split.
  - destruct (coerce_search_args (with_risk_level (VStr s) a)) as [e|p] eqn:Hc;
      [now apply (coerce_search_args_error _ _ Hc)|].
    rewrite coerce_search_args_risk in Hc.
    destruct (coerce_search_args (with_risk_level VNone a)) as [e|p0];
      [discriminate|]. injection Hc as <-.
    split; [reflexivity|].
    destruct (build_search_query_cases (with_risk_val (Some s) p0) w)
      as [[_ ->]|(e & He & ->)]; trivial.
    exact (dget_risk_assemble (with_risk_val (Some s) p0) (_, _)).
  - destruct (str_in (lower s) risk_levels) eqn:Hs; trivial.
    unfold search_crime_events, search_try, bind, lift.
    rewrite coerce_search_args_risk.
    destruct (coerce_search_args (with_risk_level VNone a)) as [e|p0] eqn:Hc;
      cbn [ebind]; [apply same_outcome_failure|].
    rewrite (build_search_query_unrecognised p0 s w
               (coerce_search_args_no_risk _ _ Hc) Hs).
    destruct (build_search_query p0 w) as [[e|query] w'];
      [apply same_outcome_failure|].
    replace (limit_val (with_risk_val (Some s) p0)) with (limit_val p0)
      by now destruct p0.
    destruct (store_find query (limit_val p0)) as [e|docs];
      [apply same_outcome_failure|].
    split; [reflexivity | repeat constructor].
Qed.

End RiskLevel.

Lemma risk_level_filter_witness :
  exists p query,
    coerce_search_args (E := quiet_env)
      (with_risk_level (VStr "HIGH") search_defaults) = inr p /\
    build_search_query (E := quiet_env) p (World 0) = (inr query, World 1) /\
    risk_val p = Some "HIGH" /\
    dget "risk" query = Some (VStr "high").
Proof.
  do 2 eexists. split; [reflexivity|]. split; [reflexivity|].
  exact (proj1 (risk_level_filter (E := quiet_env) search_defaults "HIGH"
                  (World 0))).
Defined.

Example risk_level_high_normalised :
  add_risk (Some "HIGH") [] = mkdict [("risk", VStr "high")].
Proof. reflexivity. Qed.

Example risk_level_critical_ignored : add_risk (Some "critical") [] = [].
Proof. reflexivity. Qed.

(** ** The responses *)

Section Responses.
Context {E : Env}.

(** C7 (a defect of the code): when the body of [search_crime_events]
    raises [e], the response has [success] false, the original parameters,
    a zero count and no results, and its [error] is "Search failed: "
    followed by the whole of [traceback.format_exc()], not by the message of
    [e] as in [get_crime_stats]. *)
Theorem search_failure_carries_traceback
    (a : search_args) (w w' : world) (e : exn) :
  search_try a w = (inl e, w') ->
  search_crime_events a w = (search_failure a e, w') /\
  resp_get "success" (search_failure a e) = Some (VBool false) /\
  resp_get "error" (search_failure a e) =
    Some (VStr (String.append "Search failed: " (format_exc e))) /\
  resp_get "query_params" (search_failure a e) = Some (original_params a) /\
  resp_get "results_count" (search_failure a e) = Some (VInt 0) /\
  resp_get "results" (search_failure a e) = Some (VList []).
Proof.
  intros H. unfold search_crime_events. rewrite H. repeat split.
Qed.

(** A successful search went through coercion, query construction and the
    store, in this order, and answers with what they gave. *)
Lemma search_success_inv (a : search_args) (w w' : world) (r : pyval) :
  search_try a w = (inr r, w') ->
  exists p query docs,
    coerce_search_args a = inr p /\
    build_search_query p w = (inr query, w') /\
    store_find query (limit_val p) = inr docs /\
    resp_get "success" r = Some (VBool true) /\
    resp_get "query" r = Some (VDict query) /\
    resp_get "query_params" r = Some (coerced_params p) /\
    resp_get "results_count" r = Some (VInt (Z.of_nat (List.length docs))) /\
    resp_get "results" r =
      Some (VList (map (fun doc => VDict (serialize_document doc)) docs)).
Proof.
  unfold search_try, bind, lift, ret.
  destruct (coerce_search_args a) as [e|p]; [discriminate|].
  destruct (build_search_query p w) as [[e|query] w1] eqn:Hq; [discriminate|].
  destruct (store_find query (limit_val p)) as [e|docs] eqn:Hs;
    [discriminate|].
  intros [= <- <-]. exists p, query, docs.
  repeat split; trivial.
  cbv zeta. now rewrite length_map.
Qed.

(** The sibling handler reports the message only. *)
Lemma stats_failure_carries_message (a : stats_args) (w w' : world) (e : exn) :
  stats_try a w = (inl e, w') ->
  get_crime_stats a w = (stats_failure a e, w') /\
  resp_get "error" (stats_failure a e) =
    Some (VStr (String.append "Statistics query failed: " (exn_msg e))).
Proof.
  intros H. unfold get_crime_stats. rewrite H. split; reflexivity.
Qed.

(** C8: when the aggregation returns no group, [get_crime_stats] answers
    with [success] true, [total_events] 0 and an empty [statistics]. *)
Theorem stats_no_match
    (a : stats_args) (w w' : world) (p : stats_params) (query : dict) :
  coerce_stats_args a = inr p ->
  build_stats_query p w = (inr query, w') ->
  store_aggregate (stats_pipeline query) = inr [] ->
  get_crime_stats a w = (stats_empty p, w') /\
  resp_get "success" (stats_empty p) = Some (VBool true) /\
  resp_get "total_events" (stats_empty p) = Some (VInt 0) /\
  resp_get "statistics" (stats_empty p) = Some (VDict []).
Proof.
  intros Hc Hq Hs.
  unfold get_crime_stats, stats_try, bind, lift.
  rewrite Hc, Hq, Hs. repeat split.
Qed.

(** *** The tally of risk values *)

Lemma tally_of_step s t d :
  tally_of s (assoc_set (VStr t) (tally_of t d + 1) d) =
    tally_of s d + (if string_dec t s then 1 else 0).
Proof.
  unfold tally_of at 1 3.
  destruct (string_dec t s) as [->|Hne].
  - now rewrite assoc_get_set_same.
  - rewrite assoc_get_set_other by congruence. lia.
Qed.

(** On a list of strings the loop of lines 247-249 ends, and counts each
    string as often as it occurs. *)
Lemma tally_strings (l : list string) (acc : list (pyval * Z)) :
  exists d,
    tally (map VStr l) acc = inr d /\
    forall s, tally_of s d = tally_of s acc + occurrences s l.
Proof.
  revert acc. induction l as [|t l IH]; intros acc.
  - exists acc. split; [reflexivity|]. intros s. unfold occurrences. simpl. lia.
  - cbn [map tally tally_step hashable ebind].
    destruct (IH (assoc_set (VStr t) (tally_of t acc + 1) acc)) as (d & Hd & Hc).
    exists d. split; [exact Hd|].
    intros s. rewrite Hc, tally_of_step. unfold occurrences. simpl.
    destruct (string_dec t s); lia.
Qed.

(** The part of C9 that holds: with a risk list of strings, a float average
    and both timestamps present, the summary is a success that carries the
    tally, the rounded average and the ISO renderings. *)
Lemma stats_summary_complete
    (p : stats_params) (stats : dict) (risks : list string) (avg : spec_float)
    (t1 t2 : Z) (u1 u2 : bool) :
  dget "risk_levels" stats = Some (VList (map VStr risks)) ->
  dget "avg_audio_duration" stats = Some (VFloat avg) ->
  dget "latest_event" stats = Some (VDatetime t1 u1) ->
  dget "earliest_event" stats = Some (VDatetime t2 u2) ->
  exists d response statistics,
    stats_summary p stats = inr response /\
    resp_get "success" response = Some (VBool true) /\
    resp_get "statistics" response = Some statistics /\
    resp_get "risk_distribution" statistics = Some (int_dict d) /\
    (forall s, tally_of s d = occurrences s risks) /\
    resp_get "avg_audio_duration" statistics = Some (VFloat (round2 avg)) /\
    resp_get "latest_event" statistics = Some (VStr (isoformat t1 u1)) /\
    resp_get "earliest_event" statistics = Some (VStr (isoformat t2 u2)).
Proof.
  intros Hr Ha Hl He.
  destruct (tally_strings risks []) as (d & Hd & Hc).
  unfold stats_summary, dget_default.
  rewrite Hr, Ha, Hl, He. cbn [py_iter ebind]. rewrite Hd.
  cbn [ebind py_round2 isoformat_or_none py_truthy].
  exists d. do 2 eexists. repeat split. exact Hc.
Qed.

End Responses.

(** C9 (a defect of the code): three events match, none with a numeric
    [audio_duration], so the average of the group is [None];
    [round(None, 2)] raises [TypeError] and the answer is a failure. *)
Theorem stats_without_average_fails :
  get_crime_stats (E := no_duration_env) stats_defaults (World 0) =
    (stats_failure stats_defaults
       (Exn TypeError "type NoneType doesn't define __round__ method"),
     World 1) /\
  resp_get "success"
    (fst (get_crime_stats (E := no_duration_env) stats_defaults (World 0))) =
    Some (VBool false).
Proof. split; reflexivity. Qed.

Example tally_low_low_high :
  tally [VStr "low"; VStr "low"; VStr "high"] [] =
    inr [(VStr "low", 2); (VStr "high", 1)].
Proof. reflexivity. Qed.

Lemma search_failure_carries_traceback_witness :
  search_crime_events (E := down_env) search_defaults (World 0) =
    (search_failure (E := down_env) search_defaults store_down, World 1) /\
  resp_get "success" (search_failure (E := down_env) search_defaults store_down)
    = Some (VBool false) /\
  resp_get "error" (search_failure (E := down_env) search_defaults store_down)
    = Some (VStr (String.append "Search failed: "
                    (format_exc (Env := down_env) store_down))) /\
  resp_get "query_params"
    (search_failure (E := down_env) search_defaults store_down)
    = Some (original_params search_defaults) /\
  resp_get "results_count"
    (search_failure (E := down_env) search_defaults store_down)
    = Some (VInt 0) /\
  resp_get "results" (search_failure (E := down_env) search_defaults store_down)
    = Some (VList []).
Proof.
  apply (search_failure_carries_traceback (E := down_env) search_defaults
           (World 0) (World 1) store_down).
  reflexivity.
Defined.

Lemma stats_no_match_witness :
  get_crime_stats (E := quiet_env) stats_defaults (World 0) =
    (stats_empty (StatsParams None None 24), World 1) /\
  resp_get "success" (stats_empty (StatsParams None None 24))
    = Some (VBool true) /\
  resp_get "total_events" (stats_empty (StatsParams None None 24))
    = Some (VInt 0) /\
  resp_get "statistics" (stats_empty (StatsParams None None 24))
    = Some (VDict []).
Proof.
  apply (stats_no_match (E := quiet_env) stats_defaults (World 0) (World 1)
           (StatsParams None None 24)
           (assemble_stats_query (StatsParams None None 24)
              (time_window 63929304000000000 63929390400000000)));
    reflexivity.
Defined.

(** ** Runs on the sample environment *)

(** A zipcode alone: its clause is merged into the query, no [$or]. *)
Example search_by_zipcode :
  resp_get "query"
    (fst (search_crime_events (E := quiet_env)
            (with_zipcode (VStr "95035, 95036") search_defaults) (World 0))) =
    Some (VDict (mkdict
      [("updated_at", time_range 63929304000000000 63929390400000000);
       ("zipcodes",
        VDict (mkdict
          [("$elemMatch",
            VDict (mkdict [("$in", VList [VStr "95035"; VStr "95036"])]))]));
       ("address_type", VStr "POI")])).
Proof. reflexivity. Qed.

(** A zipcode and a point: both clauses under [$or]. *)
Example search_by_zipcode_and_point :
  resp_get "query"
    (fst (search_crime_events (E := quiet_env)
            (with_point (VInt 37) (VInt (-122))
               (with_zipcode (VStr "95035") search_defaults)) (World 0))) =
    Some (VDict (mkdict
      [("updated_at", time_range 63929304000000000 63929390400000000);
       ("$or",
        VList
          [VDict (mkdict [("zipcodes", zipcode_clause "95035")]);
           VDict (build_geo_query (float_of_Z 37) (float_of_Z (-122)) five)]);
       ("address_type", VStr "POI")])).
Proof. reflexivity. Qed.

(** A latitude that is not a number coerces to [None]: no geo clause, no
    error. *)
Example search_malformed_latitude :
  resp_get "query"
    (fst (search_crime_events (E := quiet_env)
            (with_point (VStr "not-a-number") (VInt (-122)) search_defaults)
            (World 0))) =
    Some (VDict (mkdict
      [("updated_at", time_range 63929304000000000 63929390400000000);
       ("address_type", VStr "POI")])).
Proof. reflexivity. Qed.

(** An infinite [limit] is not swallowed by [parse_val]: the search fails. *)
Example search_infinite_limit :
  resp_get "success"
    (fst (search_crime_events (E := quiet_env)
            (with_limit (VFloat pos_inf) search_defaults) (World 0))) =
    Some (VBool false).
Proof. reflexivity. Qed.

(** * Further properties of the code *)

Section MoreCoercion.
Context {E : Env}.

(** X1 ([parse_val], lines 21-39): the one exception that leaves
    [parse_val] is [OverflowError], and only when the target is [int] or
    [float]; towards [str], [list] or any other type it always returns. *)
Theorem parse_val_raises_only_overflow
    (v : pyval) (t : pytype) (e : exn) :
  parse_val v t = inl e ->
  exn_cls e = OverflowError /\ (t = TInt \/ t = TFloat).
Proof.
  destruct t.
  - destruct (parse_val_str_cases v) as [H|(s & _ & H)]; rewrite H;
      discriminate.
  - destruct (parse_val_int_cases v) as [H|[(z & _ & H)|(s & _ & H)]];
      rewrite H; try discriminate.
    intros [= <-]. auto.
  - destruct (parse_val_float_cases v) as [H|[(f & _ & H)|(z & _ & H)]];
      rewrite H; try discriminate.
    intros [= <-]. auto.
  - destruct v; discriminate.
  - destruct v; discriminate.
Qed.

(** X2 ([parse_val], lines 21-39): what [parse_val] returns is [None] or a
    value of the target type: a [str], an [int], a [float], a [list]; for
    any other target it is the value itself. *)
Theorem parse_val_result_type (v r : pyval) (t : pytype) :
  parse_val v t = inr r ->
  r = VNone \/
  match t with
  | TStr => exists s, r = VStr s
  | TInt => exists z, r = VInt z
  | TFloat => exists f, r = VFloat f
  | TList => exists l, r = VList l
  | TOther => r = v
  end.
Proof.
  destruct t.
  - destruct (parse_val_str_cases v) as [H|(s & _ & H)]; rewrite H;
      intros [= <-]; eauto.
  - destruct (parse_val_int_cases v) as [H|[(z & _ & H)|(s & _ & H)]];
      rewrite H; try discriminate; intros [= <-]; eauto.
  - destruct (parse_val_float_cases v) as [H|[(f & _ & H)|(z & _ & H)]];
      rewrite H; try discriminate; intros [= <-]; eauto.
  - destruct v; simpl; intros [= <-]; eauto.
  - destruct v; simpl; intros [= <-]; eauto.
Qed.

(** X3 ([parse_val], lines 21-39): coercing a coerced value changes
    nothing. *)
Theorem parse_val_idempotent (v r : pyval) (t : pytype) :
  parse_val v t = inr r -> parse_val r t = inr r.
Proof.
  destruct t.
  - destruct (parse_val_str_cases v) as [H|(s & _ & H)]; rewrite H;
      intros [= <-]; reflexivity.
  - destruct (parse_val_int_cases v) as [H|[(z & _ & H)|(s & _ & H)]];
      rewrite H; try discriminate; intros [= <-]; reflexivity.
  - destruct (parse_val_float_cases v) as [H|[(f & _ & H)|(z & _ & H)]];
      rewrite H; try discriminate; intros [= <-]; reflexivity.
  - destruct v; simpl; intros [= <-]; reflexivity.
  - destruct v; simpl; intros [= <-]; reflexivity.
Qed.

Lemma effective_limit_bounds (v : pyval) (n : Z) :
  effective_limit v = inr n -> n <> 0 /\ n <= 100.
Proof.
  intros Hn. pose proof (effective_limit_cases v) as H.
  destruct (parse_val v TInt) as [e|[|b|z|f|s|l|d|t u|s]];
    try contradiction; rewrite H in Hn; inversion Hn; subst; clear Hn.
  - lia.
  - destruct (Z.eqb_spec z 0); lia.
Qed.

(** X4 ([search_crime_events], lines 101-103; [get_crime_stats], line 200):
    the defaults applied with [or] leave no zero behind: the effective
    number of hours is never 0, the effective limit is never 0 and never
    above 100, the effective radius is never a zero. *)
Theorem effective_values_nonzero (v : pyval) :
  (forall n, effective_hours v = inr n -> n <> 0) /\
  (forall n, effective_limit v = inr n -> n <> 0 /\ n <= 100) /\
  (forall f, effective_radius v = inr f -> float_is_zero f = false).
Proof.
  split; [|split].
  - intros n Hn. pose proof (effective_hours_cases v) as H.
    destruct (parse_val v TInt) as [e|[|b|z|f|s|l|d|t u|s]];
      try contradiction; rewrite H in Hn; inversion Hn; subst; clear Hn.
    + lia.
    + destruct (Z.eqb_spec z 0); lia.
  - intros n Hn. pose proof (effective_limit_cases v) as H.
    destruct (parse_val v TInt) as [e|[|b|z|f|s|l|d|t u|s]];
      try contradiction; rewrite H in Hn; inversion Hn; subst; clear Hn.
    + lia.
    + destruct (Z.eqb_spec z 0); lia.
  - intros f Hf. pose proof (effective_radius_cases v) as H.
    destruct (parse_val v TFloat) as [e|[|b|z|g|s|l|d|t u|s]];
      try contradiction; rewrite H in Hf; inversion Hf; subst; clear Hf.
    + reflexivity.
    + destruct (float_is_zero g) eqn:Hg; [reflexivity | exact Hg].
Qed.

End MoreCoercion.

Lemma parse_val_raises_only_overflow_witness :
  exn_cls (Exn OverflowError "cannot convert float infinity to integer") =
    OverflowError /\ (TInt = TInt \/ TInt = TFloat).
Proof.
  apply (parse_val_raises_only_overflow (E := quiet_env) (VFloat pos_inf)).
  reflexivity.
Defined.

Lemma parse_val_result_type_witness :
  VList [VStr "95035"; VStr "95036"] = VNone \/
  exists l, VList [VStr "95035"; VStr "95036"] = VList l.
Proof.
  apply (parse_val_result_type (E := quiet_env) (VStr "95035, 95036") _ TList).
  reflexivity.
Defined.

Lemma parse_val_idempotent_witness :
  parse_val (E := quiet_env) (VInt 3) TInt = inr (VInt 3).
Proof.
  apply (parse_val_idempotent (E := quiet_env)
           (VFloat (S754_finite false 7 (-1))) (VInt 3) TInt).
  reflexivity.
Defined.

Lemma effective_values_nonzero_witness : 24 <> 0.
Proof.
  apply (proj1 (effective_values_nonzero (E := quiet_env) (VInt 0))).
  reflexivity.
Defined.

(** ** Serialization *)

Local Open Scope list_scope.

Section Serialization.
Context {E : Env}.

Lemma assoc_set_values {V} (P : V -> Prop) k v (d : list (pyval * V)) :
  P v -> Forall (fun kv => P (snd kv)) d ->
  Forall (fun kv => P (snd kv)) (assoc_set k v d).
Proof.
  intros Hv. induction 1 as [|[k0 v0] r H0 Hr IH]; simpl.
  - repeat constructor. exact Hv.
  - destruct (key_eqb k0 k); constructor; trivial.
Qed.

Lemma assoc_set_keys {V} (Q : pyval -> Prop) k (v : V) d :
  Q k -> Forall (fun kv => Q (fst kv)) d ->
  Forall (fun kv => Q (fst kv)) (assoc_set k v d).
Proof.
  intros Hk. induction 1 as [|[k0 v0] r H0 Hr IH]; simpl.
  - repeat constructor. exact Hk.
  - destruct (key_eqb k0 k); constructor; trivial.
Qed.

(** A key that no entry has goes to the end. *)
Lemma assoc_set_fresh {V} k (v : V) d :
  Forall (fun kv => key_eqb (fst kv) k = false) d ->
  assoc_set k v d = d ++ [(k, v)].
Proof.
  induction 1 as [|[k0 v0] r H0 Hr IH]; simpl; trivial.
  simpl in H0. now rewrite H0, IH.
Qed.

Lemma assoc_set_distinct {V} k (v : V) d :
  distinct_keys d -> distinct_keys (assoc_set k v d).
Proof.
  induction d as [|[k0 v0] r IH]; simpl.
  - intros _. split; [constructor | exact I].
  - intros [H0 Hr]. destruct (key_eqb k0 k) eqn:Hk; simpl.
    + split; trivial.
    + split; [|now apply IH].
      now apply (assoc_set_keys (fun key => key_eqb k0 key = false)).
Qed.

Lemma distinct_keys_app_head {V} (acc d : list (pyval * V)) k v :
  distinct_keys (acc ++ (k, v) :: d) ->
  Forall (fun kv => key_eqb (fst kv) k = false) acc.
Proof.
  induction acc as [|[k0 v0] acc IH]; simpl; [constructor|].
  intros [H0 Hr]. constructor; [|now apply IH].
  rewrite Forall_app in H0. destruct H0 as [_ H0].
  now inversion H0.
Qed.

Lemma serialize_value_kind v : json_kind (serialize_value v) = true.
Proof. now destruct v. Qed.

Lemma serialize_value_fixed v : json_kind v = true -> serialize_value v = v.
Proof. now destruct v. Qed.

Lemma serialize_fold_kinds doc acc :
  Forall (fun kv => json_kind (snd kv) = true) acc ->
  Forall (fun kv => json_kind (snd kv) = true)
    (fold_left
       (fun serialized kv =>
          assoc_set (fst kv) (serialize_value (snd kv)) serialized) doc acc).
Proof.
  revert acc. induction doc as [|[k v] doc IH]; intros acc Hacc; simpl; trivial.
  apply IH.
  apply (assoc_set_values (fun x => json_kind x = true)); trivial.
  apply serialize_value_kind.
Qed.

Lemma serialize_fold_distinct doc acc :
  distinct_keys acc ->
  distinct_keys
    (fold_left
       (fun serialized kv =>
          assoc_set (fst kv) (serialize_value (snd kv)) serialized) doc acc).
Proof.
  revert acc. induction doc as [|[k v] doc IH]; intros acc Hacc; simpl; trivial.
  apply IH. now apply assoc_set_distinct.
Qed.

(** Serializing entries that are already serialized, with keys that differ,
    puts them after the ones collected so far. *)
Lemma serialize_fold_rebuild d acc :
  distinct_keys (acc ++ d) ->
  Forall (fun kv => json_kind (snd kv) = true) d ->
  fold_left
    (fun serialized kv =>
       assoc_set (fst kv) (serialize_value (snd kv)) serialized) d acc =
    acc ++ d.
Proof.
  revert acc. induction d as [|[k v] d IH]; intros acc Hd Hv; simpl.
  - now rewrite app_nil_r.
  - inversion Hv as [|? ? Hk Hv']; subst. simpl in Hk.
    rewrite (serialize_value_fixed _ Hk).
    rewrite (assoc_set_fresh k v acc (distinct_keys_app_head _ _ _ _ Hd)).
    rewrite IH; trivial; now rewrite <- app_assoc.
Qed.

(** X5 ([serialize_document], lines 69-79): every value of a serialized
    document is a bool, an int, a float, a str, a list or a dict: no
    [None], no datetime and no foreign object is left at the top level. *)
Theorem serialize_document_kinds (doc : dict) :
  Forall (fun kv => json_kind (snd kv) = true) (serialize_document doc).
Proof. apply serialize_fold_kinds. constructor. Qed.

(** X6 ([serialize_document], lines 69-79): serializing a serialized
    document gives it back unchanged. *)
Theorem serialize_document_idempotent (doc : dict) :
  serialize_document (serialize_document doc) = serialize_document doc.
Proof.
  unfold serialize_document at 1.
  apply (serialize_fold_rebuild (serialize_document doc) []).
  - apply serialize_fold_distinct. exact I.
  - apply serialize_fold_kinds. constructor.
Qed.

Lemma mkdict_app a b : mkdict (a ++ b) = mkdict a ++ mkdict b.
Proof. apply map_app. Qed.

Lemma mkdict_fresh k acc :
  ~ In k (map fst acc) ->
  Forall (fun kv => key_eqb (fst kv) (VStr k) = false) (mkdict acc).
Proof.
  induction acc as [|[k0 v0] acc IH]; simpl; intros Hk; constructor.
  - simpl. destruct (String.eqb_spec k0 k); [tauto | reflexivity].
  - apply IH. tauto.
Qed.

Lemma serialize_fold_fields kvs acc :
  NoDup (map fst (acc ++ kvs)) ->
  fold_left
    (fun serialized kv =>
       assoc_set (fst kv) (serialize_value (snd kv)) serialized)
    (mkdict kvs) (mkdict acc) =
    mkdict (acc ++ map (fun kv => (fst kv, serialize_value (snd kv))) kvs).
Proof.
  revert acc. induction kvs as [|[k v] kvs IH]; intros acc Hnd; simpl.
  - now rewrite app_nil_r.
  - rewrite (assoc_set_fresh (VStr k) (serialize_value v) (mkdict acc)).
    + change (mkdict acc ++ [(VStr k, serialize_value v)])
        with (mkdict acc ++ mkdict [(k, serialize_value v)]).
      rewrite <- mkdict_app, IH.
      * now rewrite <- app_assoc.
      * rewrite <- app_assoc. simpl.
        rewrite !map_app in *. simpl in *. exact Hnd.
    + apply mkdict_fresh. rewrite map_app in Hnd. simpl in Hnd.
      apply NoDup_remove_2 in Hnd. intros Hin. apply Hnd.
      apply in_or_app. now left.
Qed.

(** X7 ([serialize_document], lines 69-79): a document whose keys are
    distinct strings is serialized field by field, keys and order kept: a
    datetime becomes its ISO text, [None] the text "None", a foreign object
    its [str], and a bool, number, string, list or dict is passed on as it
    is, whatever it contains. *)
Theorem serialize_document_fields (kvs : list (string * pyval)) :
  NoDup (map fst kvs) ->
  serialize_document (mkdict kvs) =
    mkdict (map (fun kv => (fst kv, serialize_value (snd kv))) kvs).
Proof. intros Hnd. exact (serialize_fold_fields kvs [] Hnd). Qed.

End Serialization.

Lemma serialize_document_fields_witness :
  serialize_document (E := quiet_env) (sample_event "66f0a1" 63929390000000000)
  = mkdict
      [("_id", VStr "66f0a1");
       ("category", VStr "Theft");
       ("risk", VStr "low");
       ("zipcodes", VList [VStr "95035"]);
       ("updated_at", VStr "us:63929390000000000");
       ("summary", VStr "None")].
Proof.
  apply (serialize_document_fields (E := quiet_env)
           [("_id", VObj "66f0a1");
            ("category", VStr "Theft");
            ("risk", VStr "low");
            ("zipcodes", VList [VStr "95035"]);
            ("updated_at", VDatetime 63929390000000000 false);
            ("summary", VNone)]).
  repeat constructor; simpl; intuition discriminate.
Defined.

(** ** More on the queries *)

Section MoreQueries.
Context {E : Env}.

Lemma location_filters_without_point p :
  latitude_val p = None \/ longitude_val p = None ->
  location_filters p = location_filters (without_point p).
Proof.
  unfold location_filters, without_point. simpl.
  intros [H|H]; rewrite H; [|destruct (latitude_val p)]; reflexivity.
Qed.

(** X8 ([search_crime_events], lines 124-125): a latitude without a
    longitude, or a longitude without a latitude, is ignored: the query is
    the one built with neither, whatever the radius. *)
Theorem point_needs_both_coordinates (p : search_params) (w : world) :
  latitude_val p = None \/ longitude_val p = None ->
  build_search_query p w = build_search_query (without_point p) w.
Proof.
  intros H. unfold build_search_query, assemble_search_query.
  now rewrite (location_filters_without_point p H).
Qed.

(** X9 ([search_crime_events], lines 135-136): a non-empty category [c]
    puts [category = {"$regex": c, "$options": "i"}] in the query; an empty
    or absent one puts no category filter there. *)
Theorem category_filter (p : search_params) (w : world) :
  match build_search_query p w with
  | (inl e, _) => exn_cls e = OverflowError
  | (inr query, _) =>
      dget "category" query =
        match category_val p with
        | Some c =>
            if py_truthy (VStr c) then
              Some (VDict (mkdict [("$regex", VStr c); ("$options", VStr "i")]))
            else None
        | None => None
        end
  end.
Proof.
  destruct (build_search_query_cases p w) as [[_ ->]|(e & He & ->)]; trivial.
  unfold assemble_search_query.
  rewrite dget_dset_other, dget_add_risk by discriminate.
  assert (Hrest : dget "category"
            (add_location (location_filters p)
               (dict_update []
                  (time_window
                     (utc_clock (clock_reads w) - hours_val p * us_per_hour)
                     (utc_clock (clock_reads w))))) = None).
  { rewrite dget_add_location;
      first [discriminate | apply location_filters_clauses | idtac].
    - now apply dget_time_window_other.
    - unfold location_keys. simpl. intuition discriminate. }
  unfold add_category. destruct (category_val p) as [c|]; trivial.
  destruct (py_truthy (VStr c)); trivial. apply dget_dset_same.
Qed.

Lemma dget_time_window_plain k s e :
  k <> "updated_at" -> dget k (time_window s e) = None.
Proof. apply dget_time_window_other. Qed.

(** X10 ([get_crime_stats], lines 206-211): the statistics query carries
    at most one location clause and never an [$or]: a non-empty zipcode
    gives the zipcode clause and no [city_pid], whatever the city is;
    without it a non-empty city gives [city_pid]; without both there is no
    location clause. *)
Theorem stats_location_precedence (p : stats_params) (w : world) :
  match build_stats_query p w with
  | (inl e, _) => exn_cls e = OverflowError
  | (inr query, _) =>
      dget "$or" query = None /\
      match sp_zipcode_val p, sp_city_pid_val p with
      | Some z, c =>
          if py_truthy (VStr z) then
            dget "zipcodes" query = Some (zipcode_clause z) /\
            dget "city_pid" query = None
          else
            dget "zipcodes" query = None /\
            dget "city_pid" query =
              (if supplied c then option_map VStr c else None)
      | None, c =>
          dget "zipcodes" query = None /\
          dget "city_pid" query =
            (if supplied c then option_map VStr c else None)
      end
  end.
Proof.
  destruct (build_stats_query_cases p w) as [[_ ->]|(e & He & ->)]; trivial.
  unfold assemble_stats_query. split.
  - rewrite dget_dset_other, dget_add_stats_location by discriminate.
    now apply dget_time_window_plain.
  - unfold add_stats_location, supplied.
    destruct (sp_zipcode_val p) as [z|];
      [destruct (py_truthy (VStr z))|];
      try (destruct (sp_city_pid_val p) as [c|];
           [destruct (py_truthy (VStr c))|]);
      simpl option_map;
      repeat match goal with
      | |- _ /\ _ => split
      | |- dget ?k (dset ?k _ _) = _ => apply dget_dset_same
      | |- dget _ (dset _ _ (dset _ _ _)) = _ =>
          rewrite dget_dset_other by discriminate
      | |- dget _ (dset _ _ (time_window _ _)) = None =>
          rewrite dget_dset_other by discriminate;
          apply dget_time_window_plain; discriminate
      end.
Qed.

(** X11 (lines 108-141 against 203-212): for the same zipcode, city and
    hours, with no point, category or recognised risk level and with not
    both a zipcode and a city, the two tools build the same query at the
    same reading of the clock. *)
Theorem tools_build_same_query
    (p : search_params) (sp : stats_params) (w : world) :
  zipcode_val p = sp_zipcode_val sp ->
  city_pid_val p = sp_city_pid_val sp ->
  hours_val p = sp_hours_val sp ->
  latitude_val p = None \/ longitude_val p = None ->
  supplied (category_val p) = false ->
  recognised (risk_val p) = false ->
  supplied (zipcode_val p) && supplied (city_pid_val p) = false ->
  build_search_query p w = build_stats_query sp w.
Proof.
  intros Hz Hc Hh Hpt Hcat Hrisk Hone.
  assert (Hq : forall t0 t1,
    assemble_search_query p (time_window t0 t1) =
    assemble_stats_query sp (time_window t0 t1)).
  { intros t0 t1. unfold assemble_search_query, assemble_stats_query.
    rewrite (location_filters_without_point p Hpt).
    unfold location_filters, without_point, add_stats_location.
    cbn [zipcode_val city_pid_val latitude_val longitude_val].
    rewrite <- Hz, <- Hc.
    assert (Hr : forall q, add_risk (risk_val p) q = q).
    { intros q. unfold add_risk, recognised in *.
      destruct (risk_val p) as [s|]; trivial.
      now rewrite Hrisk, andb_false_r. }
    assert (Hk : forall q, add_category (category_val p) q = q).
    { intros q. unfold add_category, supplied in *.
      destruct (category_val p) as [c|]; trivial. now rewrite Hcat. }
    rewrite Hr, Hk. unfold supplied in Hone.
    destruct (zipcode_val p) as [z|];
      [destruct (py_truthy (VStr z))|];
      (destruct (city_pid_val p) as [c|];
       [destruct (py_truthy (VStr c))|]);
      try discriminate; reflexivity. }
  unfold build_search_query, build_stats_query, bind. rewrite <- Hh.
  destruct (window_representable_cases (utc_clock (clock_reads w)) (hours_val p))
    as [Hw|Hw].
  - rewrite (build_time_query_ok _ _ Hw). unfold ret.
    now rewrite Hq.
  - destruct (build_time_query_overflow _ _ Hw) as (e & _ & ->). reflexivity.
Qed.

(** X12 ([build_time_query], lines 55-67): the sign of [hours_back] is not
    checked.  When the window can be represented, its lower bound is at or
    before its upper bound exactly when [hours_back] is not negative; a
    negative value gives an inverted window. *)
Theorem window_order_follows_sign (h : Z) (w : world) :
  window_representable (utc_clock (clock_reads w)) h ->
  exists start_time end_time,
    build_time_query h w = (inr (time_window start_time end_time), tick w) /\
    (start_time <= end_time <-> 0 <= h).
Proof.
  intros Hw. do 2 eexists. split; [exact (build_time_query_ok h w Hw)|].
  unfold us_per_hour. lia.
Qed.

(** X13 (lines 95-186 and 196-273): a call reads the clock once, after the
    coercion of its arguments; a call whose coercion raises does not read
    it. *)
Theorem calls_read_clock_once (a : search_args) (sa : stats_args) (w : world) :
  snd (search_crime_events a w) =
    match coerce_search_args a with
    | inl _ => w
    | inr _ => tick w
    end /\
  snd (get_crime_stats sa w) =
    match coerce_stats_args sa with
    | inl _ => w
    | inr _ => tick w
    end.
Proof.
  split.
  - unfold search_crime_events, search_try, bind, lift.
    destruct (coerce_search_args a) as [e|p]; [reflexivity|].
    destruct (build_search_query_cases p w) as [[_ ->]|(e & _ & ->)];
      [|reflexivity].
    now destruct (store_find _ _).
  - unfold get_crime_stats, stats_try, bind, lift.
    destruct (coerce_stats_args sa) as [e|p]; [reflexivity|].
    destruct (build_stats_query_cases p w) as [[_ ->]|(e & _ & ->)];
      [|reflexivity].
    destruct (store_aggregate _) as [e|[|stats rest]]; try reflexivity.
    unfold ret. now destruct (stats_summary p stats).
Qed.

End MoreQueries.

Lemma point_needs_both_coordinates_witness :
  build_search_query (E := quiet_env)
    (SearchParams (Some "95035") None (Some (float_of_Z 37)) None five 24 10
       None None) (World 0) =
  build_search_query (E := quiet_env)
    (SearchParams (Some "95035") None None None five 24 10 None None)
    (World 0).
Proof.
  apply (point_needs_both_coordinates (E := quiet_env)
           (SearchParams (Some "95035") None (Some (float_of_Z 37)) None five
              24 10 None None) (World 0)).
  right. reflexivity.
Defined.

Lemma tools_build_same_query_witness :
  build_search_query (E := quiet_env)
    (SearchParams None (Some "milpitas,california") None None five 48 3 None
       (Some "critical")) (World 0) =
  build_stats_query (E := quiet_env)
    (StatsParams None (Some "milpitas,california") 48) (World 0).
Proof.
  apply (tools_build_same_query (E := quiet_env)
           (SearchParams None (Some "milpitas,california") None None five 48 3
              None (Some "critical"))
           (StatsParams None (Some "milpitas,california") 48) (World 0));
    first [reflexivity | left; reflexivity].
Defined.

Lemma window_order_follows_sign_witness :
  exists start_time end_time,
    build_time_query (E := quiet_env) (-6) (World 0) =
      (inr (time_window start_time end_time), World 1) /\
    (start_time <= end_time <-> 0 <= -6).
Proof.
  apply (window_order_follows_sign (E := quiet_env) (-6) (World 0)).
  unfold window_representable. simpl. vm_compute.
  repeat split; discriminate.
Defined.

(** ** The zipcode list *)

Section Zipcodes.

Lemma split_comma_length s :
  List.length (split_comma s) = S (count_commas s).
Proof.
  induction s as [|c r IH]; simpl; trivial.
  destruct (Ascii.eqb c ","); simpl; [now rewrite IH|].
  destruct (split_comma r); simpl in *; congruence.
Qed.

Lemma split_comma_pieces s :
  Forall (fun z => count_commas z = O) (split_comma s).
Proof.
  induction s as [|c r IH]; simpl.
  - repeat constructor.
  - destruct (Ascii.eqb c ",") eqn:Hc.
    + constructor; trivial.
    + destruct (split_comma r) as [|q qs].
      * repeat constructor. simpl. now rewrite Hc.
      * inversion IH; subst. constructor; trivial. simpl. now rewrite Hc.
Qed.

Lemma join_split_comma s : join_comma (split_comma s) = s.
Proof.
  induction s as [|c r IH]; simpl; trivial.
  destruct (Ascii.eqb_spec c ",") as [->|Hc].
  - pose proof (split_comma_length r) as Hl.
    destruct (split_comma r) as [|q qs]; [discriminate|].
    simpl in *. now rewrite IH.
  - pose proof (split_comma_length r) as Hl.
    destruct (split_comma r) as [|q [|q' qs]]; [discriminate| |];
      simpl in *; now rewrite <- IH.
Qed.

Lemma lstrip_start s : starts_with_space (lstrip s) = false.
Proof.
  induction s as [|c r IH]; simpl; trivial.
  destruct (is_space c) eqn:Hc; simpl; rewrite ?Hc; trivial.
Qed.

Lemma rstrip_end s : ends_with_space (rstrip s) = false.
Proof.
  induction s as [|c r IH]; simpl; trivial.
  destruct (rstrip r) as [|c' r'] eqn:Hr.
  - destruct (is_space c) eqn:Hc; simpl; trivial.
  - exact IH.
Qed.

Lemma rstrip_start s :
  starts_with_space s = false -> starts_with_space (rstrip s) = false.
Proof.
  destruct s as [|c r]; simpl; trivial.
  intros Hc. destruct (rstrip r); [rewrite Hc|]; simpl; exact Hc.
Qed.

Lemma lstrip_commas s : count_commas s = O -> count_commas (lstrip s) = O.
Proof.
  induction s as [|c r IH]; simpl; trivial.
  destruct (Ascii.eqb c ",") eqn:Hc; [discriminate|].
  intros Hr. destruct (is_space c); [now apply IH|].
  simpl. now rewrite Hc.
Qed.

Lemma rstrip_commas s : count_commas s = O -> count_commas (rstrip s) = O.
Proof.
  induction s as [|c r IH]; simpl; trivial.
  destruct (Ascii.eqb c ",") eqn:Hc; [discriminate|].
  intros Hr. specialize (IH Hr).
  destruct (rstrip r); [destruct (is_space c)|]; simpl; rewrite ?Hc; trivial.
Qed.

(** X14 (lines 117-119 and 207-209): the [$in] list of the zipcode clause
    has one entry per comma-separated piece of the argument, that is one
    more than it has commas; no entry begins or ends with whitespace or
    holds a comma; and the pieces, before trimming, joined by commas are the
    argument again. *)
Theorem zipcode_pieces (s : string) :
  zipcode_clause s =
    VDict (mkdict
      [("$elemMatch",
        VDict (mkdict [("$in", VList (map VStr (zipcodes_of s)))]))]) /\
  List.length (zipcodes_of s) = S (count_commas s) /\
  Forall (fun z => starts_with_space z = false /\
                   ends_with_space z = false /\
                   count_commas z = O) (zipcodes_of s) /\
  join_comma (split_comma s) = s.
Proof.
  unfold zipcode_clause, zipcodes_of. repeat split.
  - now rewrite map_map.
  - now rewrite length_map, split_comma_length.
  - apply Forall_map.
    eapply Forall_impl; [|apply split_comma_pieces].
    intros z Hz. unfold strip. repeat split.
    + apply rstrip_start, lstrip_start.
    + apply rstrip_end.
    + apply rstrip_commas, lstrip_commas, Hz.
  - apply join_split_comma.
Qed.

End Zipcodes.

(** ** More on the responses *)

Section MoreResponses.
Context {E : Env}.

Lemma coerce_search_args_numeric a p :
  coerce_search_args a = inr p ->
  effective_radius (radius_km a) = inr (radius_val p) /\
  effective_hours (hours_back a) = inr (hours_val p) /\
  effective_limit (limit a) = inr (limit_val p).
Proof.
  unfold coerce_search_args.
  destruct (x <-? parse_val (zipcode a) TStr ;; as_opt_str x);
    cbn [ebind]; [discriminate|].
  destruct (x <-? parse_val (city_pid a) TStr ;; as_opt_str x);
    cbn [ebind]; [discriminate|].
  destruct (x <-? parse_val (latitude a) TFloat ;; as_opt_float x);
    cbn [ebind]; [discriminate|].
  destruct (x <-? parse_val (longitude a) TFloat ;; as_opt_float x);
    cbn [ebind]; [discriminate|].
  destruct (effective_radius (radius_km a)); cbn [ebind]; [discriminate|].
  destruct (effective_hours (hours_back a)); cbn [ebind]; [discriminate|].
  destruct (effective_limit (limit a)); cbn [ebind]; [discriminate|].
  destruct (x <-? parse_val (category a) TStr ;; as_opt_str x);
    cbn [ebind]; [discriminate|].
  destruct (x <-? parse_val (risk_level a) TStr ;; as_opt_str x);
    cbn [ebind]; [discriminate|].
  intros [= <-]. auto.
Qed.

(** X15 ([search_crime_events], lines 82-186): whatever the arguments, the
    clock and the store, the response has a boolean [success], a list of
    [results] and a [results_count] equal to the length of that list; a
    successful one carries the [query] and no [error], a failed one carries
    an [error] text, no [query] and no results. *)
Theorem search_response_shape (a : search_args) (w : world) :
  exists (b : bool) (results : list pyval),
    resp_get "success" (fst (search_crime_events a w)) = Some (VBool b) /\
    resp_get "results" (fst (search_crime_events a w)) = Some (VList results) /\
    resp_get "results_count" (fst (search_crime_events a w)) =
      Some (VInt (Z.of_nat (List.length results))) /\
    if b then
      resp_get "error" (fst (search_crime_events a w)) = None /\
      exists query,
        resp_get "query" (fst (search_crime_events a w)) = Some (VDict query)
    else
      results = [] /\
      resp_get "query" (fst (search_crime_events a w)) = None /\
      exists text,
        resp_get "error" (fst (search_crime_events a w)) = Some (VStr text).
Proof.
  unfold search_crime_events, search_try, bind, lift, ret.
  destruct (coerce_search_args a) as [e|p];
    [exists false, []; repeat split; eexists; reflexivity|].
  destruct (build_search_query p w) as [[e|query] w1];
    [exists false, []; repeat split; eexists; reflexivity|].
  destruct (store_find query (limit_val p)) as [e|docs];
    [exists false, []; repeat split; eexists; reflexivity|].
  exists true, (map (fun doc => VDict (serialize_document doc)) docs).
  repeat split. eexists; reflexivity.
Qed.

(** X16 ([search_crime_events], lines 143-167): in a successful search the
    store was asked once, with the built query and a limit that is not 0
    and not above 100; the results are the documents it returned, in its
    order, each serialized to bool, number, string, list and dict values,
    and [results_count] is their number. *)
Theorem search_success_details
    (a : search_args) (w w' : world) (r : pyval) :
  search_try a w = (inr r, w') ->
  exists p query docs,
    coerce_search_args a = inr p /\
    build_search_query p w = (inr query, w') /\
    store_find query (limit_val p) = inr docs /\
    limit_val p <> 0 /\ limit_val p <= 100 /\
    resp_get "results" r =
      Some (VList (map (fun doc => VDict (serialize_document doc)) docs)) /\
    resp_get "results_count" r = Some (VInt (Z.of_nat (List.length docs))) /\
    Forall (fun doc =>
              Forall (fun kv => json_kind (snd kv) = true)
                (serialize_document doc)) docs.
Proof.
  intros H.
  destruct (search_success_inv a w w' r H)
    as (p & query & docs & Hc & Hq & Hs & _ & _ & _ & Hn & Hr).
  exists p, query, docs.
  destruct (coerce_search_args_numeric a p Hc) as (_ & _ & Hl).
  destruct (effective_limit_bounds _ _ Hl) as [Hz Hle].
  repeat split; trivial.
  apply Forall_forall. intros doc _. apply serialize_fold_kinds. constructor.
Qed.

(** X17 ([get_crime_stats], lines 265-273): when the body of
    [get_crime_stats] raises [e], the answer has [success] false, the error
    "Statistics query failed: " followed by the message of [e], the
    original zipcode, city and hours as they were passed, no events and
    empty statistics. *)
Theorem stats_failure_response
    (a : stats_args) (w w' : world) (e : exn) :
  stats_try a w = (inl e, w') ->
  get_crime_stats a w = (stats_failure a e, w') /\
  resp_get "success" (stats_failure a e) = Some (VBool false) /\
  resp_get "error" (stats_failure a e) =
    Some (VStr (String.append "Statistics query failed: " (exn_msg e))) /\
  resp_get "location" (stats_failure a e) =
    Some (VDict (mkdict [("zipcode", s_zipcode a);
                         ("city_pid", s_city_pid a)])) /\
  resp_get "time_period_hours" (stats_failure a e) = Some (s_hours_back a) /\
  resp_get "total_events" (stats_failure a e) = Some (VInt 0) /\
  resp_get "statistics" (stats_failure a e) = Some (VDict []).
Proof.
  intros H. unfold get_crime_stats. rewrite H. repeat split.
Qed.

End MoreResponses.

(** ** The statistics *)

Section Statistics.
Context {E : Env}.

Lemma assoc_set_total k d :
  tally_total
    (assoc_set k
       (match assoc_get k d with Some n => n | None => 0 end + 1) d) =
    tally_total d + 1.
Proof.
  induction d as [|[k0 n0] r IH]; simpl.
  - reflexivity.
  - destruct (key_eqb k0 k); simpl; [lia|]. rewrite IH. lia.
Qed.

Lemma tally_hashable l acc :
  forallb hashable l = true ->
  exists d,
    tally l acc = inr d /\
    tally_total d = tally_total acc + Z.of_nat (List.length l) /\
    (distinct_keys acc -> distinct_keys d).
Proof.
  revert acc. induction l as [|v l IH]; intros acc Hl.
  - exists acc. simpl. repeat split; [lia | trivial].
  - simpl in Hl. apply andb_true_iff in Hl. destruct Hl as [Hv Hl].
    cbn [tally]. unfold tally_step. rewrite Hv. cbn [ebind].
    destruct (IH (assoc_set v
                    (match assoc_get v acc with Some n => n | None => 0 end + 1)
                    acc) Hl) as (d & Hd & Ht & Hk).
    exists d. split; [exact Hd|]. split.
    + rewrite Ht, assoc_set_total. cbn [List.length]. lia.
    + intros Hacc. apply Hk. now apply assoc_set_distinct.
Qed.

Lemma tally_unhashable l acc :
  forallb hashable l = false ->
  exists e, tally l acc = inl e /\ exn_cls e = TypeError.
Proof.
  revert acc. induction l as [|v l IH]; intros acc Hl; [discriminate|].
  simpl in Hl. cbn [tally]. unfold tally_step.
  destruct (hashable v); cbn [ebind].
  - now apply IH.
  - eexists. split; reflexivity.
Qed.

(** X18 ([get_crime_stats], lines 246-249): when every risk value can be a
    dictionary key, the tally has pairwise different keys and its counts add
    up to the number of risk values; a risk value that is a list or a dict
    makes the loop raise [TypeError]. *)
Theorem tally_counts_every_value (risks : list pyval) :
  if forallb hashable risks then
    exists d,
      tally risks [] = inr d /\
      tally_total d = Z.of_nat (List.length risks) /\
      distinct_keys d
  else
    exists e, tally risks [] = inl e /\ exn_cls e = TypeError.
Proof.
  destruct (forallb hashable risks) eqn:Hr.
  - destruct (tally_hashable risks [] Hr) as (d & Hd & Ht & Hk).
    exists d. repeat split; trivial. now apply Hk.
  - now apply tally_unhashable.
Qed.

Lemma isoformat_or_none_stamp v :
  is_stamp v = true ->
  isoformat_or_none v =
    inr (match v with
         | VDatetime t u => VStr (isoformat t u)
         | _ => VNone
         end).
Proof. destruct v; try discriminate; reflexivity. Qed.

(** X19 ([get_crime_stats], lines 233-263): when the aggregation returns a
    group whose risk values are strings, whose average is a float and whose
    two timestamps are datetimes or missing, the answer is the success built
    from the first group: its [total_events] and [categories] as they are,
    each risk string counted as often as it occurs, the average rounded, and
    each timestamp as ISO text, or [None] where there is none. *)
Theorem stats_summary_response
    (a : stats_args) (w w' : world) (p : stats_params) (query stats : dict)
    (rest : list dict) (risks : list string) (avg : spec_float) :
  coerce_stats_args a = inr p ->
  build_stats_query p w = (inr query, w') ->
  store_aggregate (stats_pipeline query) = inr (stats :: rest) ->
  dget "risk_levels" stats = Some (VList (map VStr risks)) ->
  dget "avg_audio_duration" stats = Some (VFloat avg) ->
  is_stamp (dget_default "latest_event" VNone stats) = true ->
  is_stamp (dget_default "earliest_event" VNone stats) = true ->
  exists d response statistics,
    get_crime_stats a w = (response, w') /\
    resp_get "success" response = Some (VBool true) /\
    resp_get "time_period_hours" response = Some (VInt (sp_hours_val p)) /\
    resp_get "total_events" response =
      Some (dget_default "total_events" (VInt 0) stats) /\
    resp_get "statistics" response = Some statistics /\
    resp_get "categories" statistics =
      Some (dget_default "categories" (VList []) stats) /\
    resp_get "risk_distribution" statistics = Some (int_dict d) /\
    (forall s, tally_of s d = occurrences s risks) /\
    resp_get "avg_audio_duration" statistics = Some (VFloat (round2 avg)) /\
    resp_get "latest_event" statistics =
      Some (match dget_default "latest_event" VNone stats with
            | VDatetime t u => VStr (isoformat t u)
            | _ => VNone
            end) /\
    resp_get "earliest_event" statistics =
      Some (match dget_default "earliest_event" VNone stats with
            | VDatetime t u => VStr (isoformat t u)
            | _ => VNone
            end).
Proof.
  intros Hc Hq Hs Hr Ha Hl He.
  destruct (tally_strings risks []) as (d & Hd & Hn).
  unfold get_crime_stats, stats_try, bind, lift.
  rewrite Hc, Hq, Hs. unfold stats_summary.
  rewrite (isoformat_or_none_stamp _ Hl), (isoformat_or_none_stamp _ He).
  unfold dget_default at 1 2. rewrite Hr, Ha.
  cbn [py_iter ebind]. rewrite Hd. cbn [ebind py_round2].
  exists d. do 2 eexists. repeat split. exact Hn.
Qed.

End Statistics.

Section Uncoercible.
Context {E : Env}.

(** X20 ([search_crime_events], lines 99-103; [get_crime_stats], line 200):
    a numeric argument that fails to coerce (a list, a dict, a datetime, a
    foreign object, a NaN for an int, text that is no number) is treated as
    an absent one: the body of the call runs exactly as for [None]. *)
Theorem uncoercible_is_absent (v : pyval) :
  (parse_val v TInt = inr VNone ->
   forall a sa w,
     search_try (with_hours_back v a) w =
       search_try (with_hours_back VNone a) w /\
     search_try (with_limit v a) w = search_try (with_limit VNone a) w /\
     stats_try (with_s_hours_back v sa) w =
       stats_try (with_s_hours_back VNone sa) w) /\
  (parse_val v TFloat = inr VNone ->
   forall a other w,
     search_try (with_radius_km v a) w =
       search_try (with_radius_km VNone a) w /\
     search_try (with_point v other a) w =
       search_try (with_point VNone other a) w /\
     search_try (with_point other v a) w =
       search_try (with_point other VNone a) w) /\
  (forall l d t u s,
     parse_val (VList l) TInt = inr VNone /\
     parse_val (VDict d) TInt = inr VNone /\
     parse_val (VDatetime t u) TInt = inr VNone /\
     parse_val (VObj s) TInt = inr VNone /\
     parse_val (VFloat S754_nan) TInt = inr VNone /\
     parse_val (VList l) TFloat = inr VNone /\
     parse_val (VDict d) TFloat = inr VNone /\
     parse_val (VDatetime t u) TFloat = inr VNone /\
     parse_val (VObj s) TFloat = inr VNone).
Proof.
  split; [|split].
  - intros Hv a sa w.
    unfold search_try, stats_try, coerce_search_args, coerce_stats_args,
      effective_hours, effective_limit.
    cbn [with_hours_back with_limit with_s_hours_back zipcode city_pid
         latitude longitude radius_km hours_back limit category risk_level
         s_zipcode s_city_pid s_hours_back].
    rewrite Hv. repeat split.
  - intros Hv a other w.
    unfold search_try, coerce_search_args, effective_radius.
    cbn [with_radius_km with_point zipcode city_pid latitude longitude
         radius_km hours_back limit category risk_level].
    rewrite Hv. repeat split.
  - intros. repeat split.
Qed.

End Uncoercible.

Lemma uncoercible_is_absent_witness :
  search_try (E := quiet_env)
    (with_hours_back (VStr "soon") search_defaults) (World 0) =
    search_try (E := quiet_env)
      (with_hours_back VNone search_defaults) (World 0) /\
  search_try (E := quiet_env)
    (with_limit (VStr "soon") search_defaults) (World 0) =
    search_try (E := quiet_env) (with_limit VNone search_defaults) (World 0) /\
  stats_try (E := quiet_env)
    (with_s_hours_back (VStr "soon") stats_defaults) (World 0) =
    stats_try (E := quiet_env)
      (with_s_hours_back VNone stats_defaults) (World 0).
Proof.
  apply (proj1 (uncoercible_is_absent (E := quiet_env) (VStr "soon"))).
  reflexivity.
Defined.

Lemma search_success_details_witness :
  exists p query docs,
    coerce_search_args (E := found_env) search_defaults = inr p /\
    build_search_query (E := found_env) p (World 0) = (inr query, World 1) /\
    store_find (Env := found_env) query (limit_val p) = inr docs /\
    limit_val p <> 0 /\ limit_val p <= 100 /\
    resp_get "results"
      (fst (search_crime_events (E := found_env) search_defaults (World 0))) =
      Some (VList (map (fun doc =>
                          VDict (serialize_document (E := found_env) doc))
                     docs)) /\
    resp_get "results_count"
      (fst (search_crime_events (E := found_env) search_defaults (World 0))) =
      Some (VInt (Z.of_nat (List.length docs))) /\
    Forall (fun doc =>
              Forall (fun kv => json_kind (snd kv) = true)
                (serialize_document (E := found_env) doc)) docs.
Proof.
  apply (search_success_details (E := found_env) search_defaults (World 0)
           (World 1)
           (fst (search_crime_events (E := found_env) search_defaults
                   (World 0)))).
  reflexivity.
Defined.

Lemma stats_failure_response_witness :
  get_crime_stats (E := down_env) stats_defaults (World 0) =
    (stats_failure stats_defaults store_down, World 1) /\
  resp_get "success" (stats_failure stats_defaults store_down) =
    Some (VBool false) /\
  resp_get "error" (stats_failure stats_defaults store_down) =
    Some (VStr "Statistics query failed: No servers found yet") /\
  resp_get "location" (stats_failure stats_defaults store_down) =
    Some (VDict (mkdict [("zipcode", VNone); ("city_pid", VNone)])) /\
  resp_get "time_period_hours" (stats_failure stats_defaults store_down) =
    Some (VInt 24) /\
  resp_get "total_events" (stats_failure stats_defaults store_down) =
    Some (VInt 0) /\
  resp_get "statistics" (stats_failure stats_defaults store_down) =
    Some (VDict []).
Proof.
  apply (stats_failure_response (E := down_env) stats_defaults (World 0)
           (World 1) store_down).
  reflexivity.
Defined.

Lemma stats_summary_response_witness :
  exists d response statistics,
    get_crime_stats (E := grouped_env) stats_defaults (World 0) =
      (response, World 1) /\
    resp_get "success" response = Some (VBool true) /\
    resp_get "time_period_hours" response = Some (VInt 24) /\
    resp_get "total_events" response = Some (VInt 3) /\
    resp_get "statistics" response = Some statistics /\
    resp_get "categories" statistics =
      Some (VList [VStr "Theft"; VStr "Assault"]) /\
    resp_get "risk_distribution" statistics = Some (int_dict d) /\
    (forall s, tally_of s d = occurrences s ["low"; "low"; "high"]) /\
    resp_get "avg_audio_duration" statistics =
      Some (VFloat (float_of_Z 12)) /\
    resp_get "latest_event" statistics =
      Some (VStr "us:63929390000000000") /\
    resp_get "earliest_event" statistics =
      Some (VStr "us:63929380000000000").
Proof.
  apply (stats_summary_response (E := grouped_env) stats_defaults (World 0)
           (World 1) (StatsParams None None 24)
           (assemble_stats_query (StatsParams None None 24)
              (time_window 63929304000000000 63929390400000000))
           sample_group [] ["low"; "low"; "high"] (float_of_Z 12));
    reflexivity.
Defined.
